(** * SwasthyaSetu: rule-based vital-sign classification and trend analysis

    A shallow embedding of the deterministic part of the [PredictiveAnalytics]
    class: the threshold table built by [initializeHealthThresholds], the
    band classifiers ([classifyBloodPressure], [classifyHeartRate],
    [classifyTemperature], [classifyOxygenSaturation]), the risk assessors
    ([assessBloodPressureRisk], [assessHeartRateRisk], [assessTemperatureRisk],
    [assessOxygenRisk]) and the least-squares estimator [calculateTrend].

    Numbers.  A JavaScript number that is a reading is a finite quantity; it
    is modelled as a rational of [Q], compared with the decidable order of [Q]
    and combined with exact arithmetic.  Every integer and every decimal
    literal of the source (99.1, 100.4, 0.1, ...) is a rational.  Binary
    rounding is outside the model.  [NaN] and the infinities are left out
    of the classifiers on readings; the part on [analyzeCurrentVitals],
    which can meet them, adds them ([jsnumber]).

    Labels.  The source returns string literals; they are the constructors of
    [label], and [label_string] gives the literal back. *)

From Stdlib Require Import ZArith QArith List Ascii String Bool Lia Lqa.
Import ListNotations.

Local Open Scope Q_scope.

(** ** JavaScript comparison operators on numbers *)

Module Js.

(** [a >= b] *)
Definition ge (a b : Q) : bool := Qle_bool b a.

(** [a < b] *)
Definition lt (a b : Q) : bool := negb (Qle_bool b a).

(** [a > b] *)
Definition gt (a b : Q) : bool := negb (Qle_bool a b).

End Js.

(** ** Labels *)

(** The string literals returned by the classifiers and the assessors.  The
    literal ['high'] is both a blood-pressure band and a risk level, as are
    ['elevated'] and ['critical']; one type holds them all, as one string type
    does in the source. *)
Inductive label : Type :=
| normal | elevated | high | crisis
| bradycardia | tachycardia
| fever | highFever
| low | critical
| moderate.

Definition label_string (l : label) : string :=
  match l with
  | normal => "normal" | elevated => "elevated" | high => "high"
  | crisis => "crisis" | bradycardia => "bradycardia"
  | tachycardia => "tachycardia" | fever => "fever"
  | highFever => "highFever" | low => "low" | critical => "critical"
  | moderate => "moderate"
  end.

Definition label_eq_dec (a b : label) : {a = b} + {a <> b}.
Proof. decide equality. Defined.

(** Severity order of the blood-pressure bands:
    normal < elevated < high < crisis. *)
Definition bp_band_ordinal (l : label) : option nat :=
  match l with
  | normal => Some 0%nat | elevated => Some 1%nat
  | high => Some 2%nat | crisis => Some 3%nat
  | _ => None
  end.

(** Severity order of the risk levels:
    low < elevated < moderate < high < critical. *)
Definition risk_ordinal (l : label) : option nat :=
  match l with
  | low => Some 0%nat | elevated => Some 1%nat | moderate => Some 2%nat
  | high => Some 3%nat | critical => Some 4%nat
  | _ => None
  end.

(** [ordinal_le ord a b]: both labels belong to the scale [ord] and [a] is
    at most as severe as [b]. *)
Definition ordinal_le (ord : label -> option nat) (a b : label) : Prop :=
  match ord a, ord b with
  | Some i, Some j => (i <= j)%nat
  | _, _ => False
  end.

(** ** Band classifiers *)

Definition classifyBloodPressure (systolic diastolic : Q) : label :=
  if Js.ge systolic 180 || Js.ge diastolic 120 then crisis
  else if Js.ge systolic 130 || Js.ge diastolic 80 then high
  else if Js.ge systolic 120 && Js.lt systolic 130 && Js.lt diastolic 80
       then elevated
  else normal.

Definition classifyHeartRate (heartRate : Q) : label :=
  if Js.lt heartRate 60 then bradycardia
  else if Js.gt heartRate 100 then tachycardia
  else normal.

Definition classifyTemperature (temperature : Q) : label :=
  if Js.ge temperature 103.1 then highFever
  else if Js.ge temperature 99.1 then fever
  else normal.

Definition classifyOxygenSaturation (spo2 : Q) : label :=
  if Js.lt spo2 90 then critical
  else if Js.lt spo2 95 then low
  else normal.

(** ** Risk assessors *)

Definition assessBloodPressureRisk (systolic diastolic : Q) : label :=
  if Js.ge systolic 180 || Js.ge diastolic 120 then critical
  else if Js.ge systolic 160 || Js.ge diastolic 100 then high
  else if Js.ge systolic 140 || Js.ge diastolic 90 then moderate
  else if Js.ge systolic 120 || Js.ge diastolic 80 then elevated
  else low.

Definition assessHeartRateRisk (heartRate : Q) : label :=
  if Js.lt heartRate 40 || Js.gt heartRate 140 then critical
  else if Js.lt heartRate 50 || Js.gt heartRate 120 then high
  else if Js.lt heartRate 60 || Js.gt heartRate 100 then moderate
  else low.

Definition assessTemperatureRisk (temperature : Q) : label :=
  if Js.ge temperature 105 then critical
  else if Js.ge temperature 103 then high
  else if Js.ge temperature 100.4 then moderate
  else low.

Definition assessOxygenRisk (spo2 : Q) : label :=
  if Js.lt spo2 85 then critical
  else if Js.lt spo2 90 then high
  else if Js.lt spo2 95 then moderate
  else low.

(** ** The classification of one reading

    [analyzeCurrentVitals] builds, for each vital sign present, an entry
    holding the band ([status]) of the matching classifier and the [risk] of
    the matching assessor.  [classifyVital] is that entry for one vital. *)

Inductive VitalReading : Type :=
| BloodPressure (systolic diastolic : Q)
| HeartRate (value : Q)
| Temperature (value : Q)
| OxygenSaturation (value : Q).

Record ClassificationResult : Type := mkClassification {
  status : label;
  risk : label
}.

Definition classifyVital (r : VitalReading) : ClassificationResult :=
  match r with
  | BloodPressure systolic diastolic =>
      {| status := classifyBloodPressure systolic diastolic;
         risk := assessBloodPressureRisk systolic diastolic |}
  | HeartRate v =>
      {| status := classifyHeartRate v; risk := assessHeartRateRisk v |}
  | Temperature v =>
      {| status := classifyTemperature v; risk := assessTemperatureRisk v |}
  | OxygenSaturation v =>
      {| status := classifyOxygenSaturation v; risk := assessOxygenRisk v |}
  end.

(** The labels each classifier can return, and the labels the assessors can
    return. *)
Definition bandLabels (r : VitalReading) : list label :=
  match r with
  | BloodPressure _ _ => [crisis; high; elevated; normal]
  | HeartRate _ => [bradycardia; tachycardia; normal]
  | Temperature _ => [highFever; fever; normal]
  | OxygenSaturation _ => [critical; low; normal]
  end.

Definition riskLabels : list label := [critical; high; moderate; elevated; low].

(** ** The static threshold table *)

(** A range of the table, the two-element array [[lo, hi]]. *)
Record range : Type := mkRange { lo : Q; hi : Q }.

(** A blood-pressure band of the table: one range per component. *)
Record bpRange : Type := mkBpRange { systolic : range; diastolic : range }.

(** The object returned by [initializeHealthThresholds]; each vital maps band
    names to ranges, kept in the order the source lists them. *)
Record HealthThresholds : Type := mkThresholds {
  bloodPressure : list (label * bpRange);
  heartRate : list (label * range);
  temperature : list (label * range);
  oxygenSaturation : list (label * range)
}.

Definition initializeHealthThresholds : HealthThresholds :=
  {| bloodPressure :=
       [ (normal,   {| systolic := mkRange 90 120;  diastolic := mkRange 60 80 |});
         (elevated, {| systolic := mkRange 120 129; diastolic := mkRange 60 80 |});
         (high,     {| systolic := mkRange 130 180; diastolic := mkRange 80 120 |});
         (crisis,   {| systolic := mkRange 180 300; diastolic := mkRange 120 200 |}) ];
     heartRate :=
       [ (normal,      mkRange 60 100);
         (bradycardia, mkRange 0 60);
         (tachycardia, mkRange 100 200) ];
     temperature :=
       [ (normal,    mkRange 97.8 99.0);
         (fever,     mkRange 99.1 103.0);
         (highFever, mkRange 103.1 106.0) ];
     oxygenSaturation :=
       [ (normal,   mkRange 95 100);
         (low,      mkRange 90 95);
         (critical, mkRange 0 90) ] |}.

(** The systolic and the diastolic ranges of the blood-pressure bands. *)
Definition systolicBands (t : HealthThresholds) : list (label * range) :=
  map (fun b => (fst b, systolic (snd b))) (bloodPressure t).

Definition diastolicBands (t : HealthThresholds) : list (label * range) :=
  map (fun b => (fst b, diastolic (snd b))) (bloodPressure t).

(** The five families of ranges of the table. *)
Definition bandFamilies (t : HealthThresholds) : list (list (label * range)) :=
  [ systolicBands t; diastolicBands t; heartRate t; temperature t;
    oxygenSaturation t ].

(** How the two bounds of a range are read: the table does not say which
    bound is inclusive. *)
Inductive convention : Type := Closed | ClosedOpen | OpenClosed | Open.

Definition inRange (c : convention) (r : range) (v : Q) : Prop :=
  match c with
  | Closed => lo r <= v /\ v <= hi r
  | ClosedOpen => lo r <= v /\ v < hi r
  | OpenClosed => lo r < v /\ v <= hi r
  | Open => lo r < v /\ v < hi r
  end.

(** The invariant as the specification words it, for one family of bands
    read under convention [c]: no value lies in the ranges of two bands
    (non-overlapping), every value between two covered values is covered
    (contiguous), and the last band listed is open-ended, upward when
    [upward] holds and downward otherwise. *)
Definition nonOverlapping (c : convention) (bands : list (label * range)) : Prop :=
  forall i j bi bj v,
    nth_error bands i = Some bi -> nth_error bands j = Some bj -> i <> j ->
    ~ (inRange c (snd bi) v /\ inRange c (snd bj) v).

Definition covered (c : convention) (bands : list (label * range)) (v : Q) : Prop :=
  exists b, In b bands /\ inRange c (snd b) v.

Definition contiguous (c : convention) (bands : list (label * range)) : Prop :=
  forall u v w, covered c bands u -> covered c bands w -> u <= v -> v <= w ->
    covered c bands v.

Definition lastOpenEnded (c : convention) (upward : bool)
    (bands : list (label * range)) : Prop :=
  exists b, nth_error bands (pred (List.length bands)) = Some b /\
    forall u v, inRange c (snd b) u ->
      (if upward then u <= v else v <= u) -> inRange c (snd b) v.

Definition bandInvariant (c : convention) (upward : bool)
    (bands : list (label * range)) : Prop :=
  nonOverlapping c bands /\ contiguous c bands /\ lastOpenEnded c upward bands.

Definition thresholdInvariant (c : convention) (t : HealthThresholds) : Prop :=
  bandInvariant c true (systolicBands t) /\
  bandInvariant c true (diastolicBands t) /\
  bandInvariant c true (heartRate t) /\
  bandInvariant c true (temperature t) /\
  bandInvariant c false (oxygenSaturation t).

(** What the table does satisfy.  A range is proper when its lower bound is
    below its upper bound; [withoutBand l] drops the band named [l]. *)
Definition properRange (b : label * range) : Prop := lo (snd b) < hi (snd b).

Definition withoutBand (l : label) (bands : list (label * range))
    : list (label * range) :=
  filter (fun b => if label_eq_dec (fst b) l then false else true) bands.

(** The range of band [l], when the family has one. *)
Fixpoint rangeOf (l : label) (bands : list (label * range)) : option range :=
  match bands with
  | [] => None
  | (k, r) :: rest => if label_eq_dec k l then Some r else rangeOf l rest
  end.

(** ** The trend estimator *)

(** The values a history record can hold under a key: a number, [null], or
    nothing at all ([undefined]). *)
Inductive jsval : Type :=
| JNum (q : Q)
| JNull
| JUndefined.

(** A history record: an object, as the list of its own properties. *)
Definition record : Type := list (string * jsval).

(** [d[key]]: the value of the first property named [key], [undefined] when
    the object has none. *)
Fixpoint getProp (d : record) (key : string) : jsval :=
  match d with
  | [] => JUndefined
  | (k, v) :: rest => if String.eqb k key then v else getProp rest key
  end.

(** [.filter(v => v !== null && v !== undefined)]: the numbers that remain,
    in order. *)
Fixpoint filterValid (vs : list jsval) : list Q :=
  match vs with
  | [] => []
  | JNum q :: rest => q :: filterValid rest
  | JNull :: rest => filterValid rest
  | JUndefined :: rest => filterValid rest
  end.

(** [arr.reduce(f, init)], the callback receiving the accumulator, the
    element and its index. *)
Fixpoint reduceFrom {A B : Type} (f : B -> A -> nat -> B) (arr : list A)
    (i : nat) (acc : B) : B :=
  match arr with
  | [] => acc
  | a :: rest => reduceFrom f rest (S i) (f acc a i)
  end.

Definition reduce {A B : Type} (f : B -> A -> nat -> B) (arr : list A)
    (init : B) : B :=
  reduceFrom f arr 0 init.

(** A natural number as a JavaScript number. *)
Definition ofNat (i : nat) : Q := inject_Z (Z.of_nat i).

(** [Array.from({ length: n }, (_, i) => i)] *)
Definition indices (n : nat) : list Q := map ofNat (seq 0 n).

(** [y[i]]; the estimator only reads indices below [y.length]
    (lemma [sumXY_reads_in_range]), so the value given to an absent index
    is never used. *)
Definition at_ (y : list Q) (i : nat) : Q := nth i y 0.

Inductive direction_label : Type := increasing | decreasing | stable.

Definition direction_string (d : direction_label) : string :=
  match d with
  | increasing => "increasing"
  | decreasing => "decreasing"
  | stable => "stable"
  end.

(** The object returned by [calculateTrend]; [change] is absent from the
    degenerate result. *)
Record TrendResult : Type := mkTrend {
  direction : direction_label;
  slope : Q;
  change : option Q
}.

Definition sumX (n : nat) : Q :=
  reduce (fun a b _ => a + b) (indices n) 0.

Definition sumY (y : list Q) : Q :=
  reduce (fun a b _ => a + b) y 0.

Definition sumXY (y : list Q) : Q :=
  reduce (fun sum xi i => sum + xi * at_ y i) (indices (List.length y)) 0.

Definition sumX2 (n : nat) : Q :=
  reduce (fun sum xi _ => sum + xi * xi) (indices n) 0.

(** The divisor of the slope, [n * sumX2 - sumX * sumX]. *)
Definition slopeDenominator (n : nat) : Q :=
  ofNat n * sumX2 n - sumX n * sumX n.

Definition slopeOf (y : list Q) : Q :=
  let n := List.length y in
  (ofNat n * sumXY y - sumX n * sumY y) / slopeDenominator n.

Definition directionOf (slope : Q) : direction_label :=
  if Js.gt slope 0.1 then increasing
  else if Js.lt slope (- 0.1) then decreasing
  else stable.

(** The body of [calculateTrend] once [data.map(d => d[key])] is computed:
    the specification's [computeTrend]. *)
Definition computeTrend (raw : list jsval) : TrendResult :=
  let values := filterValid raw in
  if (List.length values <? 2)%nat then
    {| direction := stable; slope := 0; change := None |}
  else
    let slope := slopeOf values in
    {| direction := directionOf slope;
       slope := slope;
       change := Some (at_ values (List.length values - 1) - at_ values 0) |}.

Definition calculateTrend (data : list record) (key : string) : TrendResult :=
  computeTrend (map (fun d => getProp d key) data).

(** *** The slope as the specification writes it *)

(** [bigsum f n] is the sum of [f 0], ..., [f (n-1)]. *)
Fixpoint bigsum (f : nat -> Q) (n : nat) : Q :=
  match n with
  | O => 0
  | S k => bigsum f k + f k
  end.


(** ** Further severity scales *)

(** Severity order of the temperature bands: normal < fever < highFever. *)
Definition temperature_band_ordinal (l : label) : option nat :=
  match l with
  | normal => Some 0%nat | fever => Some 1%nat | highFever => Some 2%nat
  | _ => None
  end.

(** Severity order of the oxygen-saturation bands: normal < low < critical. *)
Definition spo2_band_ordinal (l : label) : option nat :=
  match l with
  | normal => Some 0%nat | low => Some 1%nat | critical => Some 2%nat
  | _ => None
  end.

(** The more severe of two labels of one scale. *)
Definition moreSevere (ord : label -> option nat) (a b : label) : label :=
  match ord a, ord b with
  | Some i, Some j => if (i <=? j)%nat then b else a
  | _, _ => a
  end.

(** The band of a vital beyond which the classifier has none. *)
Definition isMostSevereBand (r : VitalReading) (l : label) : Prop :=
  match r with
  | BloodPressure _ _ => l = crisis
  | HeartRate _ => l = bradycardia \/ l = tachycardia
  | Temperature _ => l = highFever
  | OxygenSaturation _ => l = critical
  end.

(** ** Transformations of a series, to state properties of the estimator *)




(** ** Trends over a history *)

(** The object read by [analyzeTrends]: a series of records per vital, or
    none. *)
Module History.
Record t : Type := mk {
  bloodPressure : option (list record);
  heartRate : option (list record);
  temperature : option (list record)
}.
End History.

(** The object built by [analyzeTrends]: a trend per vital, or none. *)
Module Trends.
Record t : Type := mk {
  bloodPressure : option TrendResult;
  heartRate : option TrendResult;
  temperature : option TrendResult
}.
End Trends.



(** ** Urgency *)

(** An item of [riskPredictions.shortTerm]. *)
Record RiskItem : Type := mkRiskItem {
  description : string;
  severity : label;
  timeframe : string
}.

(** The object built by [predictHealthRisks]. *)
Record RiskPredictions : Type := mkRiskPredictions {
  shortTerm : list RiskItem;
  mediumTerm : list RiskItem;
  longTerm : list RiskItem;
  conditions : list string;
  probability : label
}.

(** The string literals returned by [assessUrgency]. *)
Module Urgency.
Inductive t : Type := emergency | urgent | moderate | routine.

Definition to_string (u : t) : string :=
  match u with
  | emergency => "emergency" | urgent => "urgent"
  | moderate => "moderate" | routine => "routine"
  end.

(** routine < moderate < urgent < emergency *)
Definition rank (u : t) : nat :=
  match u with
  | routine => 0 | moderate => 1 | urgent => 2 | emergency => 3
  end.
End Urgency.

(** [l === 'critical'] and the like. *)
Definition label_eqb (a b : label) : bool :=
  if label_eq_dec a b then true else false.

(** ** Numbers in full

    What reaches [analyzeCurrentVitals] need not be a finite number: a
    reading can be an infinity or [NaN], and a missing component is
    [undefined], which a comparison turns into [NaN].  [jsnumber] adds these
    to the finite numbers; a comparison with [NaN] is false. *)
Inductive jsnumber : Type :=
| Fin (q : Q)
| PosInf
| NegInf
| NaN.

Module JsNum.

(** [a >= b], [b] a finite constant *)
Definition ge (a : jsnumber) (b : Q) : bool :=
  match a with
  | Fin x => Js.ge x b
  | PosInf => true
  | NegInf => false
  | NaN => false
  end.

(** [a < b], [b] a finite constant *)
Definition lt (a : jsnumber) (b : Q) : bool :=
  match a with
  | Fin x => Js.lt x b
  | PosInf => false
  | NegInf => true
  | NaN => false
  end.

(** [a > b], [b] a finite constant *)
Definition gt (a : jsnumber) (b : Q) : bool :=
  match a with
  | Fin x => Js.gt x b
  | PosInf => true
  | NegInf => false
  | NaN => false
  end.

(** The truth value of a number in a condition: false for 0 and [NaN]. *)
Definition truthy (a : jsnumber) : bool :=
  match a with
  | Fin x => negb (Qeq_bool x 0)
  | PosInf => true
  | NegInf => true
  | NaN => false
  end.

(** A possibly [undefined] value as the number a comparison sees. *)
Definition ofUndefined (a : option jsnumber) : jsnumber :=
  match a with
  | Some n => n
  | None => NaN
  end.

End JsNum.

(** The classifiers and the assessors on numbers in full. *)
Module Ext.

Definition classifyBloodPressure (systolic diastolic : jsnumber) : label :=
  if JsNum.ge systolic 180 || JsNum.ge diastolic 120 then crisis
  else if JsNum.ge systolic 130 || JsNum.ge diastolic 80 then high
  else if JsNum.ge systolic 120 && JsNum.lt systolic 130
          && JsNum.lt diastolic 80
       then elevated
  else normal.

Definition classifyHeartRate (heartRate : jsnumber) : label :=
  if JsNum.lt heartRate 60 then bradycardia
  else if JsNum.gt heartRate 100 then tachycardia
  else normal.

Definition classifyTemperature (temperature : jsnumber) : label :=
  if JsNum.ge temperature 103.1 then highFever
  else if JsNum.ge temperature 99.1 then fever
  else normal.

Definition classifyOxygenSaturation (spo2 : jsnumber) : label :=
  if JsNum.lt spo2 90 then critical
  else if JsNum.lt spo2 95 then low
  else normal.

Definition assessBloodPressureRisk (systolic diastolic : jsnumber) : label :=
  if JsNum.ge systolic 180 || JsNum.ge diastolic 120 then critical
  else if JsNum.ge systolic 160 || JsNum.ge diastolic 100 then high
  else if JsNum.ge systolic 140 || JsNum.ge diastolic 90 then moderate
  else if JsNum.ge systolic 120 || JsNum.ge diastolic 80 then elevated
  else low.

Definition assessHeartRateRisk (heartRate : jsnumber) : label :=
  if JsNum.lt heartRate 40 || JsNum.gt heartRate 140 then critical
  else if JsNum.lt heartRate 50 || JsNum.gt heartRate 120 then high
  else if JsNum.lt heartRate 60 || JsNum.gt heartRate 100 then moderate
  else low.

Definition assessTemperatureRisk (temperature : jsnumber) : label :=
  if JsNum.ge temperature 105 then critical
  else if JsNum.ge temperature 103 then high
  else if JsNum.ge temperature 100.4 then moderate
  else low.

Definition assessOxygenRisk (spo2 : jsnumber) : label :=
  if JsNum.lt spo2 85 then critical
  else if JsNum.lt spo2 90 then high
  else if JsNum.lt spo2 95 then moderate
  else low.

End Ext.

(** ** The analysis of the current vital signs *)

(** The [vitalSigns] object: a blood pressure written ["systolic/diastolic"]
    and three numbers, each of them possibly absent. *)
Module VitalSigns.
Record t : Type := mk {
  bloodPressure : option string;
  heartRate : option jsnumber;
  temperature : option jsnumber;
  oxygenSaturation : option jsnumber
}.
End VitalSigns.

(** The blood-pressure entry of the analysis; a component the string does
    not give is [undefined]. *)
Module BpEntry.
Record t : Type := mk {
  systolic : option jsnumber;
  diastolic : option jsnumber;
  status : label;
  risk : label
}.
End BpEntry.

(** The entry of a single-valued vital. *)
Module Entry.
Record t : Type := mk {
  value : jsnumber;
  status : label;
  risk : label
}.
End Entry.

(** The object built by [analyzeCurrentVitals]. *)
Module Analysis.
Record t : Type := mk {
  bloodPressure : option BpEntry.t;
  heartRate : option Entry.t;
  temperature : option Entry.t;
  oxygenSaturation : option Entry.t
}.

(** The [risk] of each of [Object.values(analysis)], in insertion order. *)
Definition risks (a : t) : list label :=
  match bloodPressure a with Some e => [BpEntry.risk e] | None => [] end
  ++ match heartRate a with Some e => [Entry.risk e] | None => [] end
  ++ match temperature a with Some e => [Entry.risk e] | None => [] end
  ++ match oxygenSaturation a with Some e => [Entry.risk e] | None => [] end.
End Analysis.

(** [s.split(sep)] for a one-character separator. *)
Fixpoint splitOn (sep : Ascii.ascii) (s : string) : list string :=
  match s with
  | EmptyString => [EmptyString]
  | String c rest =>
      if Ascii.eqb c sep then EmptyString :: splitOn sep rest
      else match splitOn sep rest with
           | [] => [String c EmptyString]
           | piece :: pieces => String c piece :: pieces
           end
  end.

(** The truth value of a string in a condition: false when empty. *)
Definition truthyString (s : string) : bool :=
  match s with
  | EmptyString => false
  | String _ _ => true
  end.

Section CurrentVitals.

(** [Number(s)], the conversion of a string to a number by the runtime. *)
Variable Number : string -> jsnumber.

Definition analyzeCurrentVitals (vitalSigns : VitalSigns.t) : Analysis.t :=
  {| Analysis.bloodPressure :=
       match VitalSigns.bloodPressure vitalSigns with
       | Some s =>
           if truthyString s then
             let parts := map Number (splitOn "/"%char s) in
             let systolic := nth_error parts 0 in
             let diastolic := nth_error parts 1 in
             Some {| BpEntry.systolic := systolic;
                     BpEntry.diastolic := diastolic;
                     BpEntry.status :=
                       Ext.classifyBloodPressure
                         (JsNum.ofUndefined systolic)
                         (JsNum.ofUndefined diastolic);
                     BpEntry.risk :=
                       Ext.assessBloodPressureRisk
                         (JsNum.ofUndefined systolic)
                         (JsNum.ofUndefined diastolic) |}
           else None
       | None => None
       end;
     Analysis.heartRate :=
       match VitalSigns.heartRate vitalSigns with
       | Some v =>
           if JsNum.truthy v then
             Some {| Entry.value := v;
                     Entry.status := Ext.classifyHeartRate v;
                     Entry.risk := Ext.assessHeartRateRisk v |}
           else None
       | None => None
       end;
     Analysis.temperature :=
       match VitalSigns.temperature vitalSigns with
       | Some v =>
           if JsNum.truthy v then
             Some {| Entry.value := v;
                     Entry.status := Ext.classifyTemperature v;
                     Entry.risk := Ext.assessTemperatureRisk v |}
           else None
       | None => None
       end;
     Analysis.oxygenSaturation :=
       match VitalSigns.oxygenSaturation vitalSigns with
       | Some v =>
           if JsNum.truthy v then
             Some {| Entry.value := v;
                     Entry.status := Ext.classifyOxygenSaturation v;
                     Entry.risk := Ext.assessOxygenRisk v |}
           else None
       | None => None
       end |}.

End CurrentVitals.

(** [assessUrgency]; of the analysis it reads the [risk] of each entry. *)
Definition assessUrgency (vitalAnalysis : Analysis.t)
    (riskPredictions : RiskPredictions) : Urgency.t :=
  let criticalVitals :=
    existsb (fun r => label_eqb r critical) (Analysis.risks vitalAnalysis) in
  if criticalVitals then Urgency.emergency
  else
    let highRiskPredictions :=
      existsb (fun r => label_eqb (severity r) high
                        || label_eqb (severity r) critical)
              (shortTerm riskPredictions) in
    if highRiskPredictions then Urgency.urgent
    else
      let moderateRisks :=
        existsb (fun r => label_eqb r high) (Analysis.risks vitalAnalysis) in
      if moderateRisks then Urgency.moderate
      else Urgency.routine.


(** [s.includes(c)] for a character. *)
Fixpoint hasChar (c : Ascii.ascii) (s : string) : bool :=
  match s with
  | EmptyString => false
  | String c' rest => Ascii.eqb c' c || hasChar c rest
  end.

(** A reading that a condition takes for false: 0 or [NaN]. *)
Definition falsyNumber (z : jsnumber) : Prop :=
  z = NaN \/ exists q, z = Fin q /\ q == 0.

(** ** Reading the text of a prediction

    A string is the sequence of its bytes (UTF-8): looking for ASCII text in
    it, or splitting it at an ASCII character, gives the same result on the
    bytes as on the characters. *)

(** [s.includes(sub)] *)
Fixpoint includes (sub s : string) : bool :=
  if String.prefix sub s then true
  else match s with
       | EmptyString => false
       | String _ rest => includes sub rest
       end.

(** The line feed, at which the text is split into lines. *)
Definition lineFeed : ascii := "010"%char.

Section Text.

(** [s.toLowerCase()] and [s.trim()], conversions of the runtime. *)
Variable toLowerCase : string -> string.
Variable trim : string -> string.

(** [s.toLowerCase().includes(keyword)] *)
Definition mentions (s keyword : string) : bool :=
  includes keyword (toLowerCase s).

Definition assessSeverity (content : string) : label :=
  if mentions content "critical" || mentions content "severe" then critical
  else if mentions content "high" || mentions content "serious" then high
  else if mentions content "moderate" || mentions content "medium" then moderate
  else low.

Definition extractProbability (content : string) : label :=
  if mentions content "high" || mentions content "likely" then high
  else if mentions content "moderate" || mentions content "possible"
       then moderate
  else low.

(** The loop [for (const line of lines) if (...) risks.push({...})], one
    step per line, the item pushed at the end of the array. *)
Definition extractShortTermRisks (content : string) : list RiskItem :=
  fold_left
    (fun risks line =>
       if mentions line "short-term" || mentions line "24-48 hours"
       then risks ++ [ {| description := trim line;
                          severity := assessSeverity line;
                          timeframe := "24-48 hours" |} ]
       else risks)
    (splitOn lineFeed content) [].

Definition extractMediumTermRisks (content : string) : list RiskItem :=
  fold_left
    (fun risks line =>
       if mentions line "medium-term" || mentions line "week"
       then risks ++ [ {| description := trim line;
                          severity := assessSeverity line;
                          timeframe := "1 week" |} ]
       else risks)
    (splitOn lineFeed content) [].

Definition extractLongTermRisks (content : string) : list RiskItem :=
  fold_left
    (fun risks line =>
       if mentions line "long-term" || mentions line "month"
       then risks ++ [ {| description := trim line;
                          severity := assessSeverity line;
                          timeframe := "1 month" |} ]
       else risks)
    (splitOn lineFeed content) [].

Definition extractConditions (content : string) : list string :=
  fold_left
    (fun conditions line =>
       if mentions line "condition" || mentions line "disease"
       then conditions ++ [trim line]
       else conditions)
    (splitOn lineFeed content) [].

(** [predictHealthRisks] from the outcome of the call to the language
    model: the text of its response, or nothing when the call fails and the
    [catch] branch answers. *)
Definition predictHealthRisks (response : option string) : RiskPredictions :=
  match response with
  | Some content =>
      {| shortTerm := extractShortTermRisks content;
         mediumTerm := extractMediumTermRisks content;
         longTerm := extractLongTermRisks content;
         conditions := extractConditions content;
         probability := extractProbability content |}
  | None =>
      {| shortTerm := []; mediumTerm := []; longTerm := [];
         conditions := []; probability := low |}
  end.

End Text.

(** ** Triage of a telemedicine request *)

Module Telemedicine.
Section Triage.

Variable toLowerCase : string -> string.

Definition extractSymptoms (content : string) : string :=
  if mentions toLowerCase content "symptom" then content
  else "No specific symptoms mentioned".

Definition extractConsultationType (content : string) : string :=
  if mentions toLowerCase content "emergency" then "emergency"
  else if mentions toLowerCase content "urgent" then "urgent"
  else "routine".

Definition extractUrgency (content : string) : string :=
  if mentions toLowerCase content "emergency" then "high"
  else if mentions toLowerCase content "urgent" then "medium"
  else "low".

End Triage.
End Telemedicine.

(** ** The error-handling middleware

    [errorHandler] turns an error passed along by a route into a response.
    Of the error it reads [name], [code], [status], [statusCode],
    [message] and, for a validation error, the messages of [errors]. *)

Module Err.

(** [err.code]: absent, a number, or a string. *)
Inductive code_t : Type :=
| NoCode
| NumCode (n : Z)
| StrCode (s : string).

Record t : Type := mk {
  name : option string;
  code : code_t;
  status : option Z;
  statusCode : option Z;
  message : option string;
  errors : option (list string)
}.

End Err.

Module Http.

(** The bodies [errorHandler] sends: the health body
    [{status: 'unhealthy', error, timestamp}], the API body
    [{success: false, error}] with the stack in development, and the page
    body [{success: false, error, timestamp}]. *)
Inductive body : Type :=
| Unhealthy (error : string)
| ApiFailure (error : string) (withStack : bool)
| Failure (error : string).

Record response : Type := mk {
  status : Z;
  json : body
}.

Definition error (b : body) : string :=
  match b with
  | Unhealthy e => e
  | ApiFailure e _ => e
  | Failure e => e
  end.

End Http.

(** The working copy [error] of the handler: its [message] and
    [statusCode].  The copy [{...err}] takes [statusCode] over when it is an
    own property of [err]; whether it does cannot change the status sent,
    which falls back on [err.statusCode] itself. *)
Record ErrorInfo : Type := mkErrorInfo {
  infoMessage : option string;
  infoStatusCode : option Z
}.

Definition nameIs (err : Err.t) (s : string) : bool :=
  match Err.name err with
  | Some n => String.eqb n s
  | None => false
  end.

Definition codeIs (err : Err.t) (s : string) : bool :=
  match Err.code err with
  | Err.StrCode c => String.eqb c s
  | _ => false
  end.

Definition codeIsNumber (err : Err.t) (n : Z) : bool :=
  match Err.code err with
  | Err.NumCode c => (c =? n)%Z
  | _ => false
  end.

Definition statusIs (err : Err.t) (n : Z) : bool :=
  match Err.status err with
  | Some c => (c =? n)%Z
  | None => false
  end.

(** [if (cond) { error = { message, statusCode } }] *)
Definition override (cond : bool) (message : string) (statusCode : Z)
    (error : ErrorInfo) : ErrorInfo :=
  if cond then {| infoMessage := Some message;
                  infoStatusCode := Some statusCode |}
  else error.

(** [a || b] on status codes: 0 and [undefined] give way. *)
Definition orCode (a b : option Z) : option Z :=
  match a with
  | Some z => if (z =? 0)%Z then b else a
  | None => b
  end.

(** [a || b] on messages: the empty string and [undefined] give way. *)
Definition orMessage (a : option string) (b : string) : string :=
  match a with
  | Some EmptyString => b
  | Some s => s
  | None => b
  end.

(** [errorHandler(err, req, res, next)], from [err], [req.path] and whether
    [NODE_ENV] is ['development'], to the response sent; [None] when the
    handler itself throws, which [Object.values(err.errors)] does on a
    validation error without [errors]. *)
Definition errorHandler (development : bool) (err : Err.t) (path : string)
    : option Http.response :=
  let error := {| infoMessage := Err.message err;
                  infoStatusCode := Err.statusCode err |} in
  let error := override (nameIs err "CastError")
                 "Resource not found" 404 error in
  let error := override (codeIsNumber err 11000)
                 "Duplicate field value entered" 400 error in
  let validated :=
    if nameIs err "ValidationError" then
      match Err.errors err with
      | Some messages =>
          Some {| infoMessage := Some (String.concat ", " messages);
                  infoStatusCode := Some 400%Z |}
      | None => None
      end
    else Some error in
  match validated with
  | None => None
  | Some error =>
      let error := override (nameIs err "JsonWebTokenError")
                     "Invalid token" 401 error in
      let error := override (nameIs err "TokenExpiredError")
                     "Token expired" 401 error in
      let error := override (codeIs err "openai_api_error")
                     "AI service temporarily unavailable" 503 error in
      let error := override (codeIs err "LIMIT_FILE_SIZE")
                     "File too large" 400 error in
      let error := override (codeIs err "LIMIT_UNEXPECTED_FILE")
                     "Unexpected file field" 400 error in
      let error := override (statusIs err 429)
                     "Too many requests, please try again later" 429 error in
      let error := override (codeIs err "ECONNREFUSED")
                     "Service temporarily unavailable" 503 error in
      let statusCode :=
        match orCode (orCode (infoStatusCode error) (Err.statusCode err))
                (Some 500%Z) with
        | Some c => c
        | None => 500%Z
        end in
      let message := orMessage (infoMessage error) "Server Error" in
      if String.eqb path "/health" then
        Some {| Http.status := 200; Http.json := Http.Unhealthy message |}
      else if String.prefix "/api/" path then
        Some {| Http.status := statusCode;
                Http.json := Http.ApiFailure message development |}
      else
        Some {| Http.status := statusCode;
                Http.json := Http.Failure message |}
  end.

(** The statuses the rules of [errorHandler] assign. *)
Definition ruleStatuses : list Z := [400; 401; 404; 429; 503]%Z.

(** Some rule of [errorHandler] applies to the error. *)
Definition someRule (err : Err.t) : bool :=
  nameIs err "CastError" || codeIsNumber err 11000
  || nameIs err "ValidationError" || nameIs err "JsonWebTokenError"
  || nameIs err "TokenExpiredError" || codeIs err "openai_api_error"
  || codeIs err "LIMIT_FILE_SIZE" || codeIs err "LIMIT_UNEXPECTED_FILE"
  || statusIs err 429 || codeIs err "ECONNREFUSED".

(** The rules of [errorHandler] in source order: the test of each, the
    message and the status it sets. *)
Definition errorRules (err : Err.t) : list (bool * (string * Z)) :=
  [ (nameIs err "CastError", ("Resource not found"%string, 404%Z));
    (codeIsNumber err 11000, ("Duplicate field value entered"%string, 400%Z));
    (nameIs err "ValidationError",
       (String.concat ", "
          (match Err.errors err with Some l => l | None => [] end), 400%Z));
    (nameIs err "JsonWebTokenError", ("Invalid token"%string, 401%Z));
    (nameIs err "TokenExpiredError", ("Token expired"%string, 401%Z));
    (codeIs err "openai_api_error",
       ("AI service temporarily unavailable"%string, 503%Z));
    (codeIs err "LIMIT_FILE_SIZE", ("File too large"%string, 400%Z));
    (codeIs err "LIMIT_UNEXPECTED_FILE", ("Unexpected file field"%string, 400%Z));
    (statusIs err 429, ("Too many requests, please try again later"%string, 429%Z));
    (codeIs err "ECONNREFUSED", ("Service temporarily unavailable"%string, 503%Z)) ].

(** The last rule, in source order, whose test holds. *)
Definition lastRule (err : Err.t) : option (string * Z) :=
  match find (fun rule => fst rule) (rev (errorRules err)) with
  | Some rule => Some (snd rule)
  | None => None
  end.

(** [err.statusCode || 500] *)
Definition defaultStatus (err : Err.t) : Z :=
  match orCode (Err.statusCode err) (Some 500%Z) with
  | Some c => c
  | None => 500%Z
  end.

(** The message and the status [errorHandler] settles on before it looks at
    the path. *)
Definition settled (err : Err.t) : string * Z :=
  match lastRule err with
  | Some (message, statusCode) =>
      (orMessage (Some message) "Server Error", statusCode)
  | None => (orMessage (Err.message err) "Server Error", defaultStatus err)
  end.

(** ** Telemedicine sessions

    [activeSessions] is a [Map] from session identifiers to session objects
    that [joinSession] and [endSession] change in place.  The map is a
    list of bindings in insertion order, passed in and handed back; a date
    is its time in milliseconds; the state left by the workflow in [data]
    is of a type [Data] of its own. *)

Module Sessions.

Record participant : Type := mkParticipant {
  userId : string;
  userType : string;
  joinTime : Z
}.

Section Store.

Variable Data : Type.

Record session : Type := mkSession {
  owner : string;
  startTime : Z;
  status : string;
  data : Data;
  participants : option (list participant);
  endTime : option Z
}.

Definition store : Type := list (string * session).

(** [activeSessions.get(sessionId)] *)
Fixpoint get (sessions : store) (sessionId : string) : option session :=
  match sessions with
  | [] => None
  | (k, s) :: rest => if String.eqb k sessionId then Some s else get rest sessionId
  end.

(** The session bound to [sessionId] replaced by [s']: what the map holds
    once the object has been changed in place. *)
Fixpoint replace (sessions : store) (sessionId : string) (s' : session)
    : store :=
  match sessions with
  | [] => []
  | (k, s) :: rest =>
      if String.eqb k sessionId then (k, s') :: rest
      else (k, s) :: replace rest sessionId s'
  end.

(** What [joinSession] returns. *)
Record joined : Type := mkJoined {
  joinedId : string;
  joinedStatus : string;
  joinedParticipants : list participant;
  sessionData : Data
}.

(** What [endSession] returns. *)
Record ended : Type := mkEnded {
  endedId : string;
  endedStatus : string;
  summary : string;
  duration : Z
}.

(** [joinSession] at the date [now]: the map afterwards, and the object
    returned or the message of the error thrown. *)
Definition joinSession (now : Z) (sessions : store)
    (sessionId userId userType : string) : store * (joined + string) :=
  match get sessions sessionId with
  | None => (sessions, inr "Failed to join session"%string)
  | Some s =>
      let before :=
        match participants s with Some l => l | None => [] end in
      let after :=
        before ++ [ {| userId := userId; userType := userType;
                       joinTime := now |} ] in
      let s' := {| owner := owner s; startTime := startTime s;
                   status := status s; data := data s;
                   participants := Some after; endTime := endTime s |} in
      (replace sessions sessionId s',
       inl {| joinedId := sessionId; joinedStatus := "joined";
              joinedParticipants := after; sessionData := data s |})
  end.

(** [endSession] at the date [now]; [modelSummary] is the outcome of the
    call to the language model in [generateSessionSummary], nothing when it
    fails. *)
Definition endSession (now : Z) (modelSummary : option string)
    (sessions : store) (sessionId : string) : store * (ended + string) :=
  match get sessions sessionId with
  | None => (sessions, inr "Failed to end session"%string)
  | Some s =>
      let s' := {| owner := owner s; startTime := startTime s;
                   status := "ended"; data := data s;
                   participants := participants s; endTime := Some now |} in
      let sessions' := replace sessions sessionId s' in
      match modelSummary with
      | Some text =>
          (sessions',
           inl {| endedId := sessionId; endedStatus := "ended";
                  summary := text; duration := (now - startTime s)%Z |})
      | None => (sessions', inr "Failed to end session"%string)
      end
  end.

End Store.

End Sessions.

(** * Properties *)

(** ** The comparison operators decide the order of [Q] *)

Lemma Js_ge_true (a b : Q) : Js.ge a b = true <-> b <= a.
Proof. unfold Js.ge. apply Qle_bool_iff. Qed.

Lemma Js_ge_false (a b : Q) : Js.ge a b = false <-> a < b.
Proof.
  unfold Js.ge. rewrite <- not_true_iff_false, Qle_bool_iff.
  split; [apply Qnot_le_lt | apply Qlt_not_le].
Qed.

Lemma Js_lt_true (a b : Q) : Js.lt a b = true <-> a < b.
Proof. unfold Js.lt. rewrite negb_true_iff. apply (Js_ge_false a b). Qed.

Lemma Js_lt_false (a b : Q) : Js.lt a b = false <-> b <= a.
Proof. unfold Js.lt. rewrite negb_false_iff. apply Qle_bool_iff. Qed.

Lemma Js_gt_true (a b : Q) : Js.gt a b = true <-> b < a.
Proof. unfold Js.gt. rewrite negb_true_iff. apply (Js_ge_false b a). Qed.

Lemma Js_gt_false (a b : Q) : Js.gt a b = false <-> a <= b.
Proof. unfold Js.gt. rewrite negb_false_iff. apply Qle_bool_iff. Qed.

(** Case analysis on every comparison in sight, each outcome turned into the
    order fact it stands for. *)
Ltac js_reflect :=
  repeat match goal with
  | H : Js.ge _ _ = true |- _ => apply Js_ge_true in H
  | H : Js.ge _ _ = false |- _ => apply Js_ge_false in H
  | H : Js.lt _ _ = true |- _ => apply Js_lt_true in H
  | H : Js.lt _ _ = false |- _ => apply Js_lt_false in H
  | H : Js.gt _ _ = true |- _ => apply Js_gt_true in H
  | H : Js.gt _ _ = false |- _ => apply Js_gt_false in H
  end.

Ltac js_cases :=
  repeat match goal with
  | |- context [Js.ge ?a ?b] => destruct (Js.ge a b) eqn:?
  | |- context [Js.lt ?a ?b] => destruct (Js.lt a b) eqn:?
  | |- context [Js.gt ?a ?b] => destruct (Js.gt a b) eqn:?
  end;
  js_reflect; cbn [orb andb negb].

(** Integers sit inside the numbers with their order. *)
Lemma inject_Z_le (a b : Z) : (a <= b)%Z <-> inject_Z a <= inject_Z b.
Proof. rewrite Zle_Qle. reflexivity. Qed.

Lemma inject_Z_lt (a b : Z) : (a < b)%Z <-> inject_Z a < inject_Z b.
Proof. rewrite Zlt_Qlt. reflexivity. Qed.

(** ** Blood pressure *)

(** Settles a rule of a classifier: each way of the equivalence, path by
    path through the conditionals. *)
Ltac rule_by_cases f :=
  unfold f; js_cases;
  (split; [ intros E; try discriminate E | intros E; try reflexivity ]);
  intuition lra.

(** The band, rule by rule, on arbitrary numbers. *)
Lemma bp_band_crisis (s d : Q) :
  classifyBloodPressure s d = crisis <-> 180 <= s \/ 120 <= d.
Proof. rule_by_cases classifyBloodPressure. Qed.

Lemma bp_band_high (s d : Q) :
  classifyBloodPressure s d = high <->
  ~ (180 <= s \/ 120 <= d) /\ (130 <= s \/ 80 <= d).
Proof. rule_by_cases classifyBloodPressure. Qed.

Lemma bp_band_elevated (s d : Q) :
  classifyBloodPressure s d = elevated <->
  ~ (180 <= s \/ 120 <= d) /\ ~ (130 <= s \/ 80 <= d) /\
  (120 <= s /\ s < 130 /\ d < 80).
Proof. rule_by_cases classifyBloodPressure. Qed.

Lemma bp_band_normal (s d : Q) :
  classifyBloodPressure s d = normal <->
  ~ (180 <= s \/ 120 <= d) /\ ~ (130 <= s \/ 80 <= d) /\
  ~ (120 <= s /\ s < 130 /\ d < 80).
Proof. rule_by_cases classifyBloodPressure. Qed.

Lemma bp_risk_critical (s d : Q) :
  assessBloodPressureRisk s d = critical <-> 180 <= s \/ 120 <= d.
Proof. rule_by_cases assessBloodPressureRisk. Qed.

Lemma Z_ge_number (z c : Z) : (z >= c)%Z <-> inject_Z c <= inject_Z z.
Proof. rewrite <- inject_Z_le. lia. Qed.

Lemma Z_le_number (z c : Z) : (z <= c)%Z <-> inject_Z z <= inject_Z c.
Proof. apply inject_Z_le. Qed.

Lemma Z_lt_number (z c : Z) : (z < c)%Z <-> inject_Z z < inject_Z c.
Proof. apply inject_Z_lt. Qed.

(** C1.  For every pair of integers the blood-pressure band follows the
    first-match-wins rules: crisis when systolic >= 180 or diastolic >= 120;
    otherwise high when systolic >= 130 or diastolic >= 80; otherwise elevated
    when 120 <= systolic < 130 and diastolic < 80; otherwise normal.  In
    particular a pair with systolic >= 180 or diastolic >= 120 has band
    crisis and risk critical. *)
Theorem C1_bloodPressure_band_rules (s d : Z) :
  let r := classifyVital (BloodPressure (inject_Z s) (inject_Z d)) in
  (status r = crisis <-> (s >= 180 \/ d >= 120)%Z) /\
  (status r = high <->
     ~ (s >= 180 \/ d >= 120)%Z /\ (s >= 130 \/ d >= 80)%Z) /\
  (status r = elevated <->
     ~ (s >= 180 \/ d >= 120)%Z /\ ~ (s >= 130 \/ d >= 80)%Z /\
     (120 <= s /\ s < 130 /\ d < 80)%Z) /\
  (status r = normal <->
     ~ (s >= 180 \/ d >= 120)%Z /\ ~ (s >= 130 \/ d >= 80)%Z /\
     ~ (120 <= s /\ s < 130 /\ d < 80)%Z) /\
  ((s >= 180 \/ d >= 120)%Z -> status r = crisis /\ risk r = critical).
Proof.
  cbn [classifyVital status risk].
  rewrite !Z_ge_number, !Z_le_number, !Z_lt_number.
  refine (conj _ (conj _ (conj _ (conj _ _)))).
  - exact (bp_band_crisis (inject_Z s) (inject_Z d)).
  - exact (bp_band_high (inject_Z s) (inject_Z d)).
  - exact (bp_band_elevated (inject_Z s) (inject_Z d)).
  - exact (bp_band_normal (inject_Z s) (inject_Z d)).
  - intros H. split.
    + exact (proj2 (bp_band_crisis (inject_Z s) (inject_Z d)) H).
    + exact (proj2 (bp_risk_critical (inject_Z s) (inject_Z d)) H).
Qed.

Lemma C1_bloodPressure_band_rules_witness :
  (185 >= 180 \/ 70 >= 120)%Z /\
  status (classifyVital (BloodPressure (inject_Z 185) (inject_Z 70))) = crisis /\
  risk (classifyVital (BloodPressure (inject_Z 185) (inject_Z 70))) = critical.
Proof.
  split.
  - left. lia.
  - apply (C1_bloodPressure_band_rules 185 70). left. lia.
Defined.

(** As [js_cases], one comparison at a time, dropping at once the paths
    whose order facts contradict each other. *)
Ltac js_paths :=
  repeat match goal with
  | |- context [Js.ge ?a ?b] =>
      destruct (Js.ge a b) eqn:?; js_reflect; cbn [orb andb negb]; try lra
  | |- context [Js.lt ?a ?b] =>
      destruct (Js.lt a b) eqn:?; js_reflect; cbn [orb andb negb]; try lra
  | |- context [Js.gt ?a ?b] =>
      destruct (Js.gt a b) eqn:?; js_reflect; cbn [orb andb negb]; try lra
  end.

(** Raising the systolic pressure never lowers the band. *)
Lemma bp_band_monotone (s1 s2 d : Q) :
  s1 <= s2 ->
  ordinal_le bp_band_ordinal
    (classifyBloodPressure s1 d) (classifyBloodPressure s2 d).
Proof.
  intros Hs. unfold classifyBloodPressure.
  js_paths; cbn; lia.
Qed.

(** Raising the systolic pressure never lowers the risk. *)
Lemma bp_risk_monotone (s1 s2 d : Q) :
  s1 <= s2 ->
  ordinal_le risk_ordinal
    (assessBloodPressureRisk s1 d) (assessBloodPressureRisk s2 d).
Proof.
  intros Hs. unfold assessBloodPressureRisk.
  js_paths; cbn; lia.
Qed.

(** C5.  With the diastolic pressure fixed, the band (on the scale
    normal < elevated < high < crisis) and the risk (on the scale
    low < elevated < moderate < high < critical) never decrease when the
    systolic pressure increases. *)
Theorem C5_systolic_monotone (s1 s2 d : Z) :
  (s1 <= s2)%Z ->
  ordinal_le bp_band_ordinal
    (status (classifyVital (BloodPressure (inject_Z s1) (inject_Z d))))
    (status (classifyVital (BloodPressure (inject_Z s2) (inject_Z d)))) /\
  ordinal_le risk_ordinal
    (risk (classifyVital (BloodPressure (inject_Z s1) (inject_Z d))))
    (risk (classifyVital (BloodPressure (inject_Z s2) (inject_Z d)))).
Proof.
  intros Hs. apply inject_Z_le in Hs. cbn [classifyVital status risk].
  split; [apply bp_band_monotone | apply bp_risk_monotone]; exact Hs.
Qed.

Lemma C5_systolic_monotone_witness :
  (125 <= 150)%Z /\
  ordinal_le bp_band_ordinal
    (status (classifyVital (BloodPressure (inject_Z 125) (inject_Z 70))))
    (status (classifyVital (BloodPressure (inject_Z 150) (inject_Z 70)))) /\
  ordinal_le risk_ordinal
    (risk (classifyVital (BloodPressure (inject_Z 125) (inject_Z 70))))
    (risk (classifyVital (BloodPressure (inject_Z 150) (inject_Z 70)))).
Proof.
  split; [lia | apply (C5_systolic_monotone 125 150 70); lia].
Defined.

(** C6 fails as stated: systolic -5 lies outside [0, 300], yet with
    diastolic 70 the band is normal, the least severe one. *)
Lemma C6_out_of_range_not_crisis :
  (-5 < 0)%Z /\
  status (classifyVital (BloodPressure (inject_Z (-5)) (inject_Z 70))) = normal /\
  ~ (forall s d : Z,
       (s < 0 \/ 300 < s \/ d < 0 \/ 300 < d)%Z ->
       status (classifyVital (BloodPressure (inject_Z s) (inject_Z d))) = crisis).
Proof.
  split; [lia|]. split; [reflexivity|].
  intros H. specialize (H (-5)%Z 70%Z (or_introl eq_refl)). discriminate H.
Qed.

(** C6, amended.  An input whose systolic or diastolic value exceeds 300 is
    classified crisis (with risk critical); a negative value gets no special
    treatment and is classified by the same rules, so that a negative
    systolic with a diastolic below 80, or a negative diastolic with a
    systolic below 120, is normal. *)
Theorem C6_above_range_is_crisis (s d : Z) :
  ((300 < s \/ 300 < d)%Z ->
     status (classifyVital (BloodPressure (inject_Z s) (inject_Z d))) = crisis /\
     risk (classifyVital (BloodPressure (inject_Z s) (inject_Z d))) = critical) /\
  ((s < 0 /\ d < 80 \/ d < 0 /\ s < 120)%Z ->
     status (classifyVital (BloodPressure (inject_Z s) (inject_Z d))) = normal).
Proof.
  cbn [classifyVital status risk].
  rewrite !Z_lt_number. split.
  - intros H. split.
    + apply bp_band_crisis.
      change (inject_Z 300) with 300 in H.
      destruct H; [left | right]; lra.
    + apply bp_risk_critical. change (inject_Z 300) with 300 in H.
      destruct H; [left | right]; lra.
  - intros H. apply bp_band_normal.
    change (inject_Z 0) with 0 in H. change (inject_Z 80) with 80 in H.
    change (inject_Z 120) with 120 in H.
    intuition lra.
Qed.

Lemma C6_above_range_is_crisis_witness :
  (300 < 301 \/ 300 < 70)%Z /\
  status (classifyVital (BloodPressure (inject_Z 301) (inject_Z 70))) = crisis /\
  risk (classifyVital (BloodPressure (inject_Z 301) (inject_Z 70))) = critical.
Proof.
  split.
  - left. lia.
  - apply (proj1 (C6_above_range_is_crisis 301 70)). left. lia.
Defined.







(** ** Heart rate, temperature, oxygen saturation *)

Lemma hr_band_normal_iff (h : Q) :
  classifyHeartRate h = normal <-> 60 <= h /\ h <= 100.
Proof. rule_by_cases classifyHeartRate. Qed.

Lemma hr_band_bradycardia_iff (h : Q) :
  classifyHeartRate h = bradycardia <-> h < 60.
Proof. rule_by_cases classifyHeartRate. Qed.

Lemma hr_band_tachycardia_iff (h : Q) :
  classifyHeartRate h = tachycardia <-> 100 < h.
Proof. rule_by_cases classifyHeartRate. Qed.

Lemma hr_risk_low_iff (h : Q) :
  assessHeartRateRisk h = low <-> 60 <= h /\ h <= 100.
Proof. rule_by_cases assessHeartRateRisk. Qed.

Lemma temp_band_fever_iff (t : Q) :
  classifyTemperature t = fever <-> 99.1 <= t /\ t < 103.1.
Proof. rule_by_cases classifyTemperature. Qed.

Lemma temp_band_normal_iff (t : Q) :
  classifyTemperature t = normal <-> t < 99.1.
Proof. rule_by_cases classifyTemperature. Qed.

Lemma spo2_band_low_iff (o : Q) :
  classifyOxygenSaturation o = low <-> 90 <= o /\ o < 95.
Proof. rule_by_cases classifyOxygenSaturation. Qed.

Lemma spo2_band_normal_iff (o : Q) :
  classifyOxygenSaturation o = normal <-> 95 <= o.
Proof. rule_by_cases classifyOxygenSaturation. Qed.

(** C4.  The band thresholds are exact at their boundaries: heart rate 60
    is normal (not bradycardia) and 59 is bradycardia; temperature 99.1 is
    fever and 99.0 is normal; oxygen saturation 95 is normal and 94 is
    low. *)
Theorem C4_boundary_exactness :
  status (classifyVital (HeartRate 60)) = normal /\
  status (classifyVital (HeartRate 60)) <> bradycardia /\
  status (classifyVital (HeartRate 59)) = bradycardia /\
  status (classifyVital (Temperature 99.1)) = fever /\
  status (classifyVital (Temperature 99.0)) = normal /\
  status (classifyVital (OxygenSaturation 95)) = normal /\
  status (classifyVital (OxygenSaturation 94)) = low.
Proof.
  cbn [classifyVital status].
  refine (conj _ (conj _ (conj _ (conj _ (conj _ (conj _ _)))))).
  - apply hr_band_normal_iff. lra.
  - intros E. apply hr_band_bradycardia_iff in E. lra.
  - apply hr_band_bradycardia_iff. lra.
  - apply temp_band_fever_iff. lra.
  - apply temp_band_normal_iff. lra.
  - apply spo2_band_normal_iff. lra.
  - apply spo2_band_low_iff. lra.
Qed.

(** C10.  For every heart rate the band is normal if and only if the risk
    is low, and both hold exactly when 60 <= h <= 100. *)
Theorem C10_heartRate_normal_iff_low (h : Q) :
  (status (classifyVital (HeartRate h)) = normal <->
   risk (classifyVital (HeartRate h)) = low) /\
  (status (classifyVital (HeartRate h)) = normal <-> 60 <= h /\ h <= 100) /\
  (risk (classifyVital (HeartRate h)) = low <-> 60 <= h /\ h <= 100).
Proof.
  cbn [classifyVital status risk].
  rewrite hr_band_normal_iff, hr_risk_low_iff. tauto.
Qed.

(** ** The trend estimator *)

(** *** Reductions are sums *)

(** A reduction that adds a term [h x i] per element, run over the indices
    from [i] on, continues the sum of the terms below [i]. *)
Lemma reduceFrom_indices (h : Q -> nat -> Q) (m i : nat) :
  reduceFrom (fun acc x k => acc + h x k) (map ofNat (seq i m)) i
    (bigsum (fun k => h (ofNat k) k) i)
  = bigsum (fun k => h (ofNat k) k) (i + m).
Proof.
  revert i. induction m as [|m IH]; intros i.
  - rewrite Nat.add_0_r. reflexivity.
  - cbn [seq map reduceFrom].
    change (bigsum (fun k => h (ofNat k) k) i + h (ofNat i) i)
      with (bigsum (fun k => h (ofNat k) k) (S i)).
    rewrite IH. f_equal. lia.
Qed.

Lemma reduce_indices (h : Q -> nat -> Q) (n : nat) :
  reduce (fun acc x k => acc + h x k) (indices n) 0
  = bigsum (fun k => h (ofNat k) k) n.
Proof. exact (reduceFrom_indices h n 0). Qed.

Lemma sumX_bigsum (n : nat) : sumX n = bigsum ofNat n.
Proof. exact (reduce_indices (fun x _ => x) n). Qed.

Lemma sumX2_bigsum (n : nat) :
  sumX2 n = bigsum (fun i => ofNat i * ofNat i) n.
Proof. exact (reduce_indices (fun x _ => x * x) n). Qed.

Lemma sumXY_bigsum (y : list Q) :
  sumXY y = bigsum (fun i => ofNat i * at_ y i) (List.length y).
Proof. exact (reduce_indices (fun x i => x * at_ y i) (List.length y)). Qed.




(** Sums depend on the terms below the bound only. *)
Lemma bigsum_ext (f g : nat -> Q) (n : nat) :
  (forall i, (i < n)%nat -> f i = g i) -> bigsum f n = bigsum g n.
Proof.
  induction n as [|n IH]; intros H; [reflexivity|].
  cbn [bigsum]. rewrite IH by (intros; apply H; lia).
  rewrite (H n) by lia. reflexivity.
Qed.

(** [sumXY] reads [y] below [y.length] only: any other way of answering
    absent indices gives the same sum. *)
Lemma sumXY_reads_in_range (y : list Q) (g : nat -> Q) :
  (forall i, (i < List.length y)%nat -> g i = at_ y i) ->
  reduce (fun sum xi i => sum + xi * g i) (indices (List.length y)) 0
  = sumXY y.
Proof.
  intros H. rewrite sumXY_bigsum.
  rewrite (reduce_indices (fun x i => x * g i)).
  apply bigsum_ext. intros i Hi. rewrite (H i Hi). reflexivity.
Qed.

(** *** The divisor of the slope *)

Lemma ofNat_S (n : nat) : ofNat (S n) == ofNat n + 1.
Proof.
  unfold ofNat. rewrite Nat2Z.inj_succ. unfold Z.succ.
  rewrite inject_Z_plus. reflexivity.
Qed.

Lemma ofNat_le (a b : nat) : (a <= b)%nat -> ofNat a <= ofNat b.
Proof. intros H. unfold ofNat. rewrite <- Zle_Qle. lia. Qed.

(** 0 + 1 + ... + (n-1) = n (n-1) / 2 *)
Lemma sum_of_indices (n : nat) :
  2 * bigsum ofNat n == ofNat n * (ofNat n - 1).
Proof.
  induction n as [|n IH].
  - reflexivity.
  - cbn [bigsum]. rewrite ofNat_S, Qmult_plus_distr_r, IH. ring.
Qed.

(** 0 + 1 + 4 + ... + (n-1)^2 = (n-1) n (2n-1) / 6 *)
Lemma sum_of_squares (n : nat) :
  6 * bigsum (fun i => ofNat i * ofNat i) n
  == (ofNat n - 1) * ofNat n * (2 * ofNat n - 1).
Proof.
  induction n as [|n IH].
  - reflexivity.
  - cbn [bigsum]. rewrite ofNat_S, Qmult_plus_distr_r, IH. ring.
Qed.

(** n Sum(x^2) - (Sum(x))^2 = n^2 (n^2 - 1) / 12 *)
Lemma slopeDenominator_closed (n : nat) :
  12 * slopeDenominator n
  == ofNat n * ofNat n * (ofNat n - 1) * (ofNat n + 1).
Proof.
  unfold slopeDenominator. rewrite sumX_bigsum, sumX2_bigsum.
  set (S1 := bigsum ofNat n).
  set (S2 := bigsum (fun i => ofNat i * ofNat i) n).
  assert (E : 12 * (ofNat n * S2 - S1 * S1)
              == 2 * ofNat n * (6 * S2) - 3 * ((2 * S1) * (2 * S1))) by ring.
  rewrite E. unfold S1, S2.
  rewrite sum_of_squares, sum_of_indices. ring.
Qed.

Lemma slopeDenominator_pos (n : nat) :
  (2 <= n)%nat -> 0 < slopeDenominator n.
Proof.
  intros Hn. apply ofNat_le in Hn. change (ofNat 2) with 2 in Hn.
  pose proof (slopeDenominator_closed n) as E.
  assert (P : 0 < ofNat n * ofNat n * (ofNat n - 1) * (ofNat n + 1)).
  { repeat apply Qmult_lt_0_compat; lra. }
  lra.
Qed.

Lemma slopeDenominator_nonzero (n : nat) :
  (2 <= n)%nat -> ~ slopeDenominator n == 0.
Proof. intros Hn E. pose proof (slopeDenominator_pos n Hn). lra. Qed.

(** *** Direction, change, degenerate result *)




Lemma computeTrend_degenerate (raw : list jsval) :
  (List.length (filterValid raw) < 2)%nat ->
  computeTrend raw = {| direction := stable; slope := 0; change := None |}.
Proof.
  intros H. unfold computeTrend.
  apply Nat.ltb_lt in H. rewrite H. reflexivity.
Qed.

Lemma computeTrend_regular (raw : list jsval) :
  (2 <= List.length (filterValid raw))%nat ->
  computeTrend raw =
  {| direction := directionOf (slopeOf (filterValid raw));
     slope := slopeOf (filterValid raw);
     change := Some (at_ (filterValid raw) (List.length (filterValid raw) - 1)
                     - at_ (filterValid raw) 0) |}.
Proof.
  intros H. unfold computeTrend.
  destruct (Nat.ltb_spec (List.length (filterValid raw)) 2) as [L|L];
    [lia | reflexivity].
Qed.



(** *** Claims on the estimator *)



(** C3.  When fewer than two values remain after [null] and [undefined]
    are filtered out, the result is the degenerate one: direction stable,
    slope 0 and no change field.  The empty sequence and [5] are such
    inputs. *)
Theorem C3_computeTrend_degenerate :
  (forall raw : list jsval,
     (List.length (filterValid raw) < 2)%nat ->
     direction (computeTrend raw) = stable /\
     slope (computeTrend raw) = 0 /\
     change (computeTrend raw) = None) /\
  computeTrend [] = {| direction := stable; slope := 0; change := None |} /\
  computeTrend [JNum 5] = {| direction := stable; slope := 0; change := None |}.
Proof.
  split; [|split].
  - intros raw H. rewrite (computeTrend_degenerate raw H).
    repeat split; reflexivity.
  - reflexivity.
  - reflexivity.
Qed.

Lemma C3_computeTrend_degenerate_witness :
  (List.length (filterValid [JNull; JNum 5; JUndefined]) < 2)%nat /\
  direction (computeTrend [JNull; JNum 5; JUndefined]) = stable /\
  slope (computeTrend [JNull; JNum 5; JUndefined]) = 0 /\
  change (computeTrend [JNull; JNum 5; JUndefined]) = None.
Proof.
  assert (H : (List.length (filterValid [JNull; JNum 5; JUndefined]) < 2)%nat)
    by (cbn; lia).
  split; [exact H|].
  exact (proj1 C3_computeTrend_degenerate [JNull; JNum 5; JUndefined] H).
Defined.

(** Every label a classifier returns is one of its vital's bands, every
    label an assessor returns a risk level. *)
Lemma classifyVital_labels (r : VitalReading) :
  In (status (classifyVital r)) (bandLabels r) /\
  In (risk (classifyVital r)) riskLabels.
Proof.
  destruct r as [s d|h|t|o]; cbn [classifyVital status risk bandLabels];
    unfold riskLabels, classifyBloodPressure, assessBloodPressureRisk,
      classifyHeartRate, assessHeartRateRisk, classifyTemperature,
      assessTemperatureRisk, classifyOxygenSaturation, assessOxygenRisk;
    split;
    repeat match goal with
    | |- context [if ?b then _ else _] => destruct b
    end; cbn; tauto.
Qed.

(** C9.  Every numeric reading, negative and impossible ones included, gets
    a band label of its vital and a risk label: the classifiers are total
    functions with no error outcome.  In the estimator the divisor
    n Sum(x^2) - (Sum(x))^2 of the slope is not zero whenever at least two
    values remain after filtering, that is whenever the division is
    evaluated. *)
Theorem C9_total_and_division_safe :
  (forall r : VitalReading,
     exists band level : label,
       classifyVital r = {| status := band; risk := level |} /\
       In band (bandLabels r) /\ In level riskLabels) /\
  (forall raw : list jsval,
     let n := List.length (filterValid raw) in
     (2 <= n)%nat ->
     slopeDenominator n
     = ofNat n * bigsum (fun i => ofNat i * ofNat i) n
       - bigsum ofNat n * bigsum ofNat n /\
     ~ slopeDenominator n == 0 /\
     slope (computeTrend raw)
     = (ofNat n * sumXY (filterValid raw) - sumX n * sumY (filterValid raw))
       / slopeDenominator n).
Proof.
  split.
  - intros r. exists (status (classifyVital r)), (risk (classifyVital r)).
    split; [destruct r; reflexivity | apply classifyVital_labels].
  - intros raw n Hn. split; [|split].
    + unfold slopeDenominator. rewrite sumX_bigsum, sumX2_bigsum. reflexivity.
    + apply slopeDenominator_nonzero. exact Hn.
    + rewrite (computeTrend_regular raw Hn). reflexivity.
Qed.

Lemma C9_total_and_division_safe_witness :
  (2 <= List.length (filterValid [JNum 50; JNum 50; JNum 50; JNum 50]))%nat /\
  ~ slopeDenominator (List.length (filterValid [JNum 50; JNum 50; JNum 50; JNum 50])) == 0.
Proof.
  assert (H : (2 <= List.length
                     (filterValid [JNum 50; JNum 50; JNum 50; JNum 50]))%nat)
    by (cbn; lia).
  split; [exact H|].
  exact (proj1 (proj2 (proj2 C9_total_and_division_safe
                         [JNum 50; JNum 50; JNum 50; JNum 50] H))).
Defined.

(** ** The threshold table *)

Ltac by_position i j Hi Hj :=
  do 5 (try destruct i as [|i]); do 5 (try destruct j as [|j]);
  cbn in Hi, Hj; try discriminate Hi; try discriminate Hj;
  try congruence;
  injection Hi as <-; injection Hj as <-.

(** Read with both bounds excluded, the ranges of a family other than the
    diastolic one are pairwise disjoint: two bands share a bound at most. *)
Lemma systolic_interiors_disjoint :
  nonOverlapping Open (systolicBands initializeHealthThresholds).
Proof.
  intros i j bi bj v Hi Hj Hij [[? ?] [? ?]].
  by_position i j Hi Hj; cbn in *; lra.
Qed.

Lemma heartRate_interiors_disjoint :
  nonOverlapping Open (heartRate initializeHealthThresholds).
Proof.
  intros i j bi bj v Hi Hj Hij [[? ?] [? ?]].
  by_position i j Hi Hj; cbn in *; lra.
Qed.

Lemma temperature_interiors_disjoint :
  nonOverlapping Open (temperature initializeHealthThresholds).
Proof.
  intros i j bi bj v Hi Hj Hij [[? ?] [? ?]].
  by_position i j Hi Hj; cbn in *; lra.
Qed.

Lemma oxygenSaturation_interiors_disjoint :
  nonOverlapping Open (oxygenSaturation initializeHealthThresholds).
Proof.
  intros i j bi bj v Hi Hj Hij [[? ?] [? ?]].
  by_position i j Hi Hj; cbn in *; lra.
Qed.

Lemma diastolic_interiors_disjoint_but_elevated :
  nonOverlapping Open
    (withoutBand elevated (diastolicBands initializeHealthThresholds)).
Proof.
  intros i j bi bj v Hi Hj Hij [[? ?] [? ?]].
  by_position i j Hi Hj; cbn in *; lra.
Qed.

(** The diastolic ranges of normal and elevated are one and the same, so
    they overlap however the bounds are read. *)
Lemma diastolic_normal_elevated_overlap (c : convention) :
  ~ nonOverlapping c (diastolicBands initializeHealthThresholds).
Proof.
  intros H.
  apply (H 0%nat 1%nat (normal, mkRange 60 80) (elevated, mkRange 60 80) 70);
    [reflexivity | reflexivity | discriminate |].
  destruct c; cbn; lra.
Qed.

(** A range with finite bounds is open-ended neither upward nor downward. *)
Lemma range_not_open_upward (c : convention) (r : range) :
  lo r < hi r ->
  ~ (forall u v, inRange c r u -> u <= v -> inRange c r v).
Proof.
  intros P H.
  specialize (H ((lo r + hi r) * 0.5) (hi r + 1)).
  destruct c; cbn in H; destruct H; try split; lra.
Qed.

Lemma range_not_open_downward (c : convention) (r : range) :
  lo r < hi r ->
  ~ (forall u v, inRange c r u -> v <= u -> inRange c r v).
Proof.
  intros P H.
  specialize (H ((lo r + hi r) * 0.5) (lo r - 1)).
  destruct c; cbn in H; destruct H; try split; lra.
Qed.

Ltac last_band_bounded :=
  let b := fresh "b" in
  let Hb := fresh "Hb" in
  let H := fresh "H" in
  intros [b [Hb H]]; cbn in Hb; injection Hb as <-;
  first [ apply range_not_open_upward in H
        | apply range_not_open_downward in H ];
  [ exact H | cbn; lra ].

Lemma systolic_last_band_bounded (c : convention) :
  ~ lastOpenEnded c true (systolicBands initializeHealthThresholds).
Proof. last_band_bounded. Qed.

Lemma diastolic_last_band_bounded (c : convention) :
  ~ lastOpenEnded c true (diastolicBands initializeHealthThresholds).
Proof. last_band_bounded. Qed.

Lemma heartRate_last_band_bounded (c : convention) :
  ~ lastOpenEnded c true (heartRate initializeHealthThresholds).
Proof. last_band_bounded. Qed.

Lemma temperature_last_band_bounded (c : convention) :
  ~ lastOpenEnded c true (temperature initializeHealthThresholds).
Proof. last_band_bounded. Qed.

Lemma oxygenSaturation_last_band_bounded (c : convention) :
  ~ lastOpenEnded c false (oxygenSaturation initializeHealthThresholds).
Proof. last_band_bounded. Qed.

(** Integer bounds as bounds on numbers. *)
Lemma const_le_inject (c z : Z) : (c <= z)%Z -> (c # 1) <= inject_Z z.
Proof. intros H. apply (inject_Z_le c z). exact H. Qed.

Lemma inject_le_const (z c : Z) : (z <= c)%Z -> inject_Z z <= (c # 1).
Proof. intros H. apply (inject_Z_le z c). exact H. Qed.

Ltac in_band b :=
  exists b; split; [ cbn; tauto | cbn; split ];
  first [ apply const_le_inject; lia | apply inject_le_const; lia ].

(** Read with both bounds included, the ranges of each family leave no
    whole-number reading uncovered between the least lower bound and the
    greatest upper bound of the family. *)
Lemma systolic_covers_integers (z : Z) :
  (90 <= z <= 300)%Z ->
  covered Closed (systolicBands initializeHealthThresholds) (inject_Z z).
Proof.
  intros [L U].
  destruct (Z_le_gt_dec z 120); [in_band (normal, mkRange 90 120)|].
  destruct (Z_le_gt_dec z 129); [in_band (elevated, mkRange 120 129)|].
  destruct (Z_le_gt_dec z 180); [in_band (high, mkRange 130 180)|].
  in_band (crisis, mkRange 180 300).
Qed.

Lemma diastolic_covers_integers (z : Z) :
  (60 <= z <= 200)%Z ->
  covered Closed (diastolicBands initializeHealthThresholds) (inject_Z z).
Proof.
  intros [L U].
  destruct (Z_le_gt_dec z 80); [in_band (normal, mkRange 60 80)|].
  destruct (Z_le_gt_dec z 120); [in_band (high, mkRange 80 120)|].
  in_band (crisis, mkRange 120 200).
Qed.

Lemma heartRate_covers_integers (z : Z) :
  (0 <= z <= 200)%Z ->
  covered Closed (heartRate initializeHealthThresholds) (inject_Z z).
Proof.
  intros [L U].
  destruct (Z_le_gt_dec z 60); [in_band (bradycardia, mkRange 0 60)|].
  destruct (Z_le_gt_dec z 100); [in_band (normal, mkRange 60 100)|].
  in_band (tachycardia, mkRange 100 200).
Qed.

Lemma oxygenSaturation_covers_integers (z : Z) :
  (0 <= z <= 100)%Z ->
  covered Closed (oxygenSaturation initializeHealthThresholds) (inject_Z z).
Proof.
  intros [L U].
  destruct (Z_le_gt_dec z 90); [in_band (critical, mkRange 0 90)|].
  destruct (Z_le_gt_dec z 95); [in_band (low, mkRange 90 95)|].
  in_band (normal, mkRange 95 100).
Qed.

(** The temperature ranges leave no reading in tenths of a degree uncovered
    between 97.8 and 106.0. *)
Lemma temperature_covers_tenths (z : Z) :
  (978 <= z <= 1060)%Z ->
  covered Closed (temperature initializeHealthThresholds) (inject_Z z / 10).
Proof.
  intros [L U]. unfold Qdiv. change (/ 10) with 0.1.
  pose proof (const_le_inject 978 z L) as L'.
  pose proof (inject_le_const z 1060 U) as U'.
  destruct (Z_le_gt_dec z 990) as [H|H].
  { pose proof (inject_le_const z 990 H).
    exists (normal, mkRange 97.8 99.0). split; [cbn; tauto | cbn; lra]. }
  assert (H1 : (991 <= z)%Z) by lia.
  pose proof (const_le_inject 991 z H1).
  destruct (Z_le_gt_dec z 1030) as [H2|H2].
  { pose proof (inject_le_const z 1030 H2).
    exists (fever, mkRange 99.1 103.0). split; [cbn; tauto | cbn; lra]. }
  assert (H3 : (1031 <= z)%Z) by lia.
  pose proof (const_le_inject 1031 z H3).
  exists (highFever, mkRange 103.1 106.0). split; [cbn; tauto | cbn; lra].
Qed.

(** Between two temperature ranges lies a gap: 99.05 belongs to none. *)
Lemma temperature_gap (c : convention) :
  ~ covered c (temperature initializeHealthThresholds) 99.05.
Proof.
  intros [b [Hin Hr]]. cbn in Hin.
  destruct Hin as [<-|[<-|[<-|[]]]]; destruct c; cbn in Hr; lra.
Qed.

Lemma table_ranges_proper :
  Forall (Forall properRange) (bandFamilies initializeHealthThresholds).
Proof. repeat constructor; unfold properRange; cbn; lra. Qed.

(** C8 fails as stated: however the bounds are read, the table is not a
    family of non-overlapping, contiguous bands whose last one is open-ended.
    The diastolic ranges of normal and elevated are both [60, 80], and the
    last systolic band, crisis, stops at 300. *)
Lemma C8_table_invariant_fails :
  ~ (exists c : convention, thresholdInvariant c initializeHealthThresholds) /\
  rangeOf normal (diastolicBands initializeHealthThresholds)
  = Some (mkRange 60 80) /\
  rangeOf elevated (diastolicBands initializeHealthThresholds)
  = Some (mkRange 60 80) /\
  rangeOf crisis (systolicBands initializeHealthThresholds)
  = Some (mkRange 180 300).
Proof.
  split; [|repeat split; reflexivity].
  intros [c (_ & (N & _) & _)].
  exact (diastolic_normal_elevated_overlap c N).
Qed.

(** C8, amended.  Every range of the table has a lower bound below its upper
    bound, and no band is open-ended: the last band of each vital is bounded
    like the others.  Read with both bounds included, the ranges of a vital
    cover every whole-number reading (every tenth of a degree for
    temperature) between the least lower and the greatest upper bound of
    that vital: systolic 90-300, diastolic 60-200, heart rate 0-200,
    temperature 97.8-106.0, oxygen saturation 0-100.  Two bands of a vital
    share a bound at most, except that the diastolic ranges of normal and
    elevated are the same. *)
Theorem C8_threshold_table_shape :
  let T := initializeHealthThresholds in
  Forall (Forall properRange) (bandFamilies T) /\
  ((forall c, ~ lastOpenEnded c true (systolicBands T)) /\
   (forall c, ~ lastOpenEnded c true (diastolicBands T)) /\
   (forall c, ~ lastOpenEnded c true (heartRate T)) /\
   (forall c, ~ lastOpenEnded c true (temperature T)) /\
   (forall c, ~ lastOpenEnded c false (oxygenSaturation T))) /\
  ((forall z : Z, (90 <= z <= 300)%Z ->
      covered Closed (systolicBands T) (inject_Z z)) /\
   (forall z : Z, (60 <= z <= 200)%Z ->
      covered Closed (diastolicBands T) (inject_Z z)) /\
   (forall z : Z, (0 <= z <= 200)%Z ->
      covered Closed (heartRate T) (inject_Z z)) /\
   (forall z : Z, (978 <= z <= 1060)%Z ->
      covered Closed (temperature T) (inject_Z z / 10)) /\
   (forall z : Z, (0 <= z <= 100)%Z ->
      covered Closed (oxygenSaturation T) (inject_Z z))) /\
  (nonOverlapping Open (systolicBands T) /\
   nonOverlapping Open (heartRate T) /\
   nonOverlapping Open (temperature T) /\
   nonOverlapping Open (oxygenSaturation T) /\
   nonOverlapping Open (withoutBand elevated (diastolicBands T)) /\
   rangeOf elevated (diastolicBands T) = rangeOf normal (diastolicBands T)).
Proof.
  cbv zeta. split; [exact table_ranges_proper|]. split; [|split].
  - repeat split.
    + exact systolic_last_band_bounded.
    + exact diastolic_last_band_bounded.
    + exact heartRate_last_band_bounded.
    + exact temperature_last_band_bounded.
    + exact oxygenSaturation_last_band_bounded.
  - repeat split.
    + exact systolic_covers_integers.
    + exact diastolic_covers_integers.
    + exact heartRate_covers_integers.
    + exact temperature_covers_tenths.
    + exact oxygenSaturation_covers_integers.
  - repeat split.
    + exact systolic_interiors_disjoint.
    + exact heartRate_interiors_disjoint.
    + exact temperature_interiors_disjoint.
    + exact oxygenSaturation_interiors_disjoint.
    + exact diastolic_interiors_disjoint_but_elevated.
Qed.

Lemma C8_threshold_table_shape_witness :
  (90 <= 129 <= 300)%Z /\
  covered Closed (systolicBands initializeHealthThresholds) (inject_Z 129).
Proof.
  assert (H : (90 <= 129 <= 300)%Z) by lia.
  split; [exact H|].
  exact (proj1 (proj1 (proj2 (proj2 C8_threshold_table_shape))) 129%Z H).
Defined.

(** ** The estimator on history records *)

(** [calculateTrend] reads the values under [key]; a record without the key
    and a [null] value are skipped. *)
Example calculateTrend_history :
  let data := [ [("timestamp", JNum 1); ("value", JNum 10)];
                [("timestamp", JNum 2)];
                [("timestamp", JNum 3); ("value", JNull)];
                [("timestamp", JNum 4); ("value", JNum 20)];
                [("timestamp", JNum 5); ("value", JNum 30)] ]%string in
  direction (calculateTrend data "value") = increasing /\
  slope (calculateTrend data "value") == 10 /\
  change (calculateTrend data "value") = Some 20.
Proof. vm_compute. repeat split; reflexivity. Qed.

(** [50, 50, 50, 50] has slope 0, direction stable and change 0. *)
Example computeTrend_constant :
  let t := computeTrend [JNum 50; JNum 50; JNum 50; JNum 50] in
  slope t == 0 /\ direction t = stable /\ change t = Some 0.
Proof. vm_compute. repeat split; reflexivity. Qed.

(** * Further properties of the classifiers *)

(** Raising the systolic pressure, the diastolic pressure or both never
    lowers the band or the risk of a blood-pressure reading. *)
Theorem bloodPressure_monotone (s1 s2 d1 d2 : Q) :
  s1 <= s2 -> d1 <= d2 ->
  ordinal_le bp_band_ordinal
    (status (classifyVital (BloodPressure s1 d1)))
    (status (classifyVital (BloodPressure s2 d2))) /\
  ordinal_le risk_ordinal
    (risk (classifyVital (BloodPressure s1 d1)))
    (risk (classifyVital (BloodPressure s2 d2))).
Proof.
  intros Hs Hd. cbn [classifyVital status risk]. split.
  - unfold classifyBloodPressure. js_paths; cbn; lia.
  - unfold assessBloodPressureRisk. js_paths; cbn; lia.
Qed.

Lemma bloodPressure_monotone_witness :
  118 <= 125 /\ 70 <= 85 /\
  ordinal_le bp_band_ordinal
    (status (classifyVital (BloodPressure 118 70)))
    (status (classifyVital (BloodPressure 125 85))) /\
  ordinal_le risk_ordinal
    (risk (classifyVital (BloodPressure 118 70)))
    (risk (classifyVital (BloodPressure 125 85))).
Proof.
  assert (Hs : 118 <= 125) by lra. assert (Hd : 70 <= 85) by lra.
  split; [exact Hs|]. split; [exact Hd|].
  exact (bloodPressure_monotone 118 125 70 85 Hs Hd).
Defined.

(** The band and the risk of a blood-pressure reading are the worse of what
    its systolic value alone and its diastolic value alone would give (the
    other component held at 0, below every threshold). *)
Theorem bloodPressure_worse_component (s d : Q) :
  classifyBloodPressure s d
  = moreSevere bp_band_ordinal
      (classifyBloodPressure s 0) (classifyBloodPressure 0 d) /\
  assessBloodPressureRisk s d
  = moreSevere risk_ordinal
      (assessBloodPressureRisk s 0) (assessBloodPressureRisk 0 d).
Proof.
  split.
  - unfold classifyBloodPressure. js_paths; reflexivity.
  - unfold assessBloodPressureRisk. js_paths; reflexivity.
Qed.

Ltac classifier_paths :=
  cbn [classifyVital status risk isMostSevereBand];
  unfold classifyBloodPressure, assessBloodPressureRisk,
    classifyHeartRate, assessHeartRateRisk, classifyTemperature,
    assessTemperatureRisk, classifyOxygenSaturation, assessOxygenRisk;
  js_paths.



(** The converse fails for temperature only in one stretch: from 99.1 up to
    100.4 the band is fever although the risk is still low; for the other
    vitals risk low means band normal. *)
Theorem low_risk_band (r : VitalReading) :
  risk (classifyVital r) = low ->
  match r with
  | Temperature t =>
      (t < 99.1 /\ status (classifyVital r) = normal) \/
      (99.1 <= t /\ t < 100.4 /\ status (classifyVital r) = fever)
  | _ => status (classifyVital r) = normal
  end.
Proof.
  destruct r as [s d|h|t|o]; classifier_paths;
    intros E; try discriminate E; try reflexivity.
  - right. repeat split; try lra.
  - left. split; [lra | reflexivity].
Qed.

Lemma low_risk_band_witness :
  risk (classifyVital (Temperature 100)) = low /\
  ((100 < 99.1 /\ status (classifyVital (Temperature 100)) = normal) \/
   (99.1 <= 100 /\ 100 < 100.4 /\
    status (classifyVital (Temperature 100)) = fever)).
Proof.
  assert (H : risk (classifyVital (Temperature 100)) = low) by reflexivity.
  split; [exact H|].
  exact (low_risk_band (Temperature 100) H).
Defined.

(** A heart rate further above 100, or further below 60, never has a lower
    risk; a higher temperature never has a lower band or risk; a lower
    oxygen saturation never has a less severe band or risk. *)
Theorem single_value_risks_monotone (a b : Q) :
  a <= b ->
  (100 <= a ->
   ordinal_le risk_ordinal (assessHeartRateRisk a) (assessHeartRateRisk b)) /\
  (b <= 60 ->
   ordinal_le risk_ordinal (assessHeartRateRisk b) (assessHeartRateRisk a)) /\
  ordinal_le temperature_band_ordinal
    (classifyTemperature a) (classifyTemperature b) /\
  ordinal_le risk_ordinal
    (assessTemperatureRisk a) (assessTemperatureRisk b) /\
  ordinal_le spo2_band_ordinal
    (classifyOxygenSaturation b) (classifyOxygenSaturation a) /\
  ordinal_le risk_ordinal (assessOxygenRisk b) (assessOxygenRisk a).
Proof.
  intros H.
  refine (conj _ (conj _ (conj _ (conj _ (conj _ _))))).
  - intros Ha. unfold assessHeartRateRisk. js_paths; cbn; lia.
  - intros Hb. unfold assessHeartRateRisk. js_paths; cbn; lia.
  - unfold classifyTemperature. js_paths; cbn; lia.
  - unfold assessTemperatureRisk. js_paths; cbn; lia.
  - unfold classifyOxygenSaturation. js_paths; cbn; lia.
  - unfold assessOxygenRisk. js_paths; cbn; lia.
Qed.

Lemma single_value_risks_monotone_witness :
  88 <= 96 /\
  ordinal_le spo2_band_ordinal
    (classifyOxygenSaturation 96) (classifyOxygenSaturation 88) /\
  ordinal_le risk_ordinal (assessOxygenRisk 96) (assessOxygenRisk 88).
Proof.
  assert (H : 88 <= 96) by lra.
  split; [exact H|].
  exact (proj2 (proj2 (proj2 (proj2 (single_value_risks_monotone 88 96 H))))).
Defined.

(** * The threshold table against the classifiers *)

(** The table is never read by the classifiers, yet it describes them: a
    reading strictly inside the range of a band is given that band.  For
    blood pressure both components must lie strictly inside the ranges of
    the band. *)
Theorem table_describes_classifiers (l : label) (v : Q) :
  let T := initializeHealthThresholds in
  (forall r, In (l, r) (heartRate T) -> inRange Open r v ->
     classifyHeartRate v = l) /\
  (forall r, In (l, r) (temperature T) -> inRange Open r v ->
     classifyTemperature v = l) /\
  (forall r, In (l, r) (oxygenSaturation T) -> inRange Open r v ->
     classifyOxygenSaturation v = l) /\
  (forall b d, In (l, b) (bloodPressure T) ->
     inRange Open (systolic b) v -> inRange Open (diastolic b) d ->
     classifyBloodPressure v d = l).
Proof.
  cbv zeta. refine (conj _ (conj _ (conj _ _))).
  - intros r Hin Hr. cbn in Hin.
    repeat (destruct Hin as [Hin|Hin]; [injection Hin as <- <-|]);
      try contradiction; cbn in Hr.
    + apply hr_band_normal_iff. lra.
    + apply hr_band_bradycardia_iff. lra.
    + apply hr_band_tachycardia_iff. lra.
  - intros r Hin Hr. cbn in Hin.
    repeat (destruct Hin as [Hin|Hin]; [injection Hin as <- <-|]);
      try contradiction; cbn in Hr;
      unfold classifyTemperature; js_paths; reflexivity.
  - intros r Hin Hr. cbn in Hin.
    repeat (destruct Hin as [Hin|Hin]; [injection Hin as <- <-|]);
      try contradiction; cbn in Hr;
      unfold classifyOxygenSaturation; js_paths; reflexivity.
  - intros b d Hin Hs Hd. cbn in Hin.
    repeat (destruct Hin as [Hin|Hin]; [injection Hin as <- <-|]);
      try contradiction; cbn in Hs, Hd;
      unfold classifyBloodPressure; js_paths; reflexivity.
Qed.

Lemma table_describes_classifiers_witness :
  In (elevated, {| systolic := mkRange 120 129; diastolic := mkRange 60 80 |})
     (bloodPressure initializeHealthThresholds) /\
  inRange Open (mkRange 120 129) 125 /\ inRange Open (mkRange 60 80) 70 /\
  classifyBloodPressure 125 70 = elevated.
Proof.
  assert (Hin : In (elevated,
                    {| systolic := mkRange 120 129; diastolic := mkRange 60 80 |})
                   (bloodPressure initializeHealthThresholds))
    by (cbn; tauto).
  assert (Hs : inRange Open (mkRange 120 129) 125) by (cbn; lra).
  assert (Hd : inRange Open (mkRange 60 80) 70) by (cbn; lra).
  split; [exact Hin|]. split; [exact Hs|]. split; [exact Hd|].
  exact (proj2 (proj2 (proj2 (table_describes_classifiers elevated 125)))
           _ 70 Hin Hs Hd).
Defined.

(** On the bounds the table and the classifiers part ways: 60 lies in the
    table's bradycardia range [0, 60] and 100 in its tachycardia range
    [100, 200], but the classifier calls both normal. *)
Lemma table_bounds_differ :
  inRange Closed (mkRange 0 60) 60 /\ classifyHeartRate 60 = normal /\
  inRange Closed (mkRange 100 200) 100 /\ classifyHeartRate 100 = normal.
Proof. cbn. repeat split; try lra; reflexivity. Qed.

(** * Further properties of the trend estimator *)

(** *** Sums *)





(** *** The slope as dividend over divisor *)




(** *** Affine changes of the readings *)







(** *** Readings on a straight line *)





(** *** Readings that never decrease *)










(** *** Gaps in a series *)

Lemma filterValid_app (l1 l2 : list jsval) :
  filterValid (l1 ++ l2) = filterValid l1 ++ filterValid l2.
Proof.
  induction l1 as [|[q| |] l1 IH]; cbn; [reflexivity | f_equal | |]; exact IH.
Qed.


(** A record whose value under the key is [null] or missing leaves no trace:
    the estimator fits the remaining values against their own positions
    0, 1, 2, ..., so that the readings after a gap move one index down. *)
Theorem calculateTrend_skips_gaps (d1 d2 : list record) (r : record)
    (key : string) :
  getProp r key = JNull \/ getProp r key = JUndefined ->
  calculateTrend (d1 ++ r :: d2) key = calculateTrend (d1 ++ d2) key.
Proof.
  intros H. unfold calculateTrend, computeTrend.
  rewrite !map_app, !filterValid_app. cbn [map filterValid].
  destruct H as [-> | ->]; reflexivity.
Qed.

Lemma calculateTrend_skips_gaps_witness :
  (getProp [("date", JNum 2)] "value" = JNull \/
   getProp [("date", JNum 2)] "value" = JUndefined)%string /\
  (calculateTrend ([[("value", JNum 10)]] ++ [("date", JNum 2)]
                     :: [[("value", JNum 30)]]) "value"
   = calculateTrend ([[("value", JNum 10)]] ++ [[("value", JNum 30)]]) "value")%string.
Proof.
  assert (H : (getProp [("date", JNum 2)] "value" = JNull \/
               getProp [("date", JNum 2)] "value" = JUndefined)%string)
    by (right; reflexivity).
  split; [exact H|].
  exact (calculateTrend_skips_gaps _ _ _ _ H).
Defined.

(** * The trends of a history *)



(** * Urgency *)

Lemma label_eqb_eq (a b : label) : label_eqb a b = true <-> a = b.
Proof.
  unfold label_eqb. destruct (label_eq_dec a b); split; congruence.
Qed.

Lemma some_risk (l : label) (rs : list label) :
  existsb (fun r => label_eqb r l) rs = true <-> In l rs.
Proof.
  rewrite existsb_exists. split.
  - intros (r & Hin & E). apply label_eqb_eq in E. subst. exact Hin.
  - intros Hin. exists l. split; [exact Hin | apply label_eqb_eq; reflexivity].
Qed.

(** A short-term prediction of severity high or critical. *)
Lemma some_severe_prediction (rs : list RiskItem) :
  existsb (fun r => label_eqb (severity r) high
                    || label_eqb (severity r) critical) rs = true
  <-> exists r, In r rs /\ (severity r = high \/ severity r = critical).
Proof.
  rewrite existsb_exists. split; intros (r & Hin & E); exists r; (split; [exact Hin|]).
  - apply orb_true_iff in E. rewrite !label_eqb_eq in E. exact E.
  - apply orb_true_iff. rewrite !label_eqb_eq. exact E.
Qed.

Lemma assessUrgency_cases (a : Analysis.t) (p : RiskPredictions) :
  let severe := exists r, In r (shortTerm p) /\
                          (severity r = high \/ severity r = critical) in
  (assessUrgency a p = Urgency.emergency <-> In critical (Analysis.risks a)) /\
  (assessUrgency a p = Urgency.urgent <->
     ~ In critical (Analysis.risks a) /\ severe) /\
  (assessUrgency a p = Urgency.moderate <->
     ~ In critical (Analysis.risks a) /\ ~ severe /\
     In high (Analysis.risks a)) /\
  (assessUrgency a p = Urgency.routine <->
     ~ In critical (Analysis.risks a) /\ ~ severe /\
     ~ In high (Analysis.risks a)).
Proof.
  cbv zeta. unfold assessUrgency.
  pose proof (some_risk critical (Analysis.risks a)) as C.
  pose proof (some_severe_prediction (shortTerm p)) as S.
  pose proof (some_risk high (Analysis.risks a)) as H.
  destruct (existsb (fun r => label_eqb r critical) (Analysis.risks a));
  destruct (existsb _ (shortTerm p));
  destruct (existsb (fun r => label_eqb r high) (Analysis.risks a));
  cbv zeta; intuition (try discriminate; try congruence).
Qed.

(** The urgency is emergency exactly when some vital has risk critical;
    failing that, urgent exactly when some short-term prediction has
    severity high or critical; failing that, moderate exactly when some
    vital has risk high; and routine otherwise.  So a vital of risk high
    weighs less than a prediction, the risks moderate and elevated weigh
    nothing, and neither do the medium-term and long-term predictions. *)
Theorem assessUrgency_levels (a : Analysis.t) (p : RiskPredictions) :
  let severe := exists r, In r (shortTerm p) /\
                          (severity r = high \/ severity r = critical) in
  (assessUrgency a p = Urgency.emergency <-> In critical (Analysis.risks a)) /\
  (assessUrgency a p = Urgency.urgent <->
     ~ In critical (Analysis.risks a) /\ severe) /\
  (assessUrgency a p = Urgency.moderate <->
     ~ In critical (Analysis.risks a) /\ ~ severe /\
     In high (Analysis.risks a)) /\
  (assessUrgency a p = Urgency.routine <->
     ~ In critical (Analysis.risks a) /\ ~ severe /\
     ~ In high (Analysis.risks a)).
Proof. exact (assessUrgency_cases a p). Qed.

(** More findings never lower the urgency: when every risk of one analysis
    occurs in another and every short-term prediction likewise, the urgency
    of the second is at least that of the first. *)
Theorem assessUrgency_monotone (a a' : Analysis.t) (p p' : RiskPredictions) :
  incl (Analysis.risks a) (Analysis.risks a') ->
  incl (shortTerm p) (shortTerm p') ->
  (Urgency.rank (assessUrgency a p) <= Urgency.rank (assessUrgency a' p'))%nat.
Proof.
  intros Ia Ip.
  destruct (assessUrgency_cases a p) as (L1 & L2 & L3 & _).
  destruct (assessUrgency_cases a' p') as (L1' & L2' & L3' & L4').
  destruct (assessUrgency a p) eqn:E.
  - assert (E' : assessUrgency a' p' = Urgency.emergency).
    { apply L1'. apply Ia. apply L1. reflexivity. }
    rewrite E'. cbn. lia.
  - destruct (proj1 L2 eq_refl) as (_ & r & Hin & Hs).
    destruct (assessUrgency a' p') eqn:E'; cbn; try lia; exfalso.
    + destruct (proj1 L3' eq_refl) as (_ & N & _). apply N. exists r. split; [apply Ip; exact Hin | exact Hs].
    + destruct (proj1 L4' eq_refl) as (_ & N & _).
      apply N. exists r. split; [apply Ip; exact Hin | exact Hs].
  - destruct (proj1 L3 eq_refl) as (_ & _ & Hh).
    destruct (assessUrgency a' p') eqn:E'; cbn; try lia; exfalso.
    destruct (proj1 L4' eq_refl) as (_ & _ & N). apply N. apply Ia. exact Hh.
  - cbn. lia.
Qed.

Lemma assessUrgency_monotone_witness :
  let a := {| Analysis.bloodPressure := None;
              Analysis.heartRate :=
                Some {| Entry.value := Fin 130; Entry.status := tachycardia;
                        Entry.risk := high |};
              Analysis.temperature := None;
              Analysis.oxygenSaturation := None |} in
  let a' := {| Analysis.bloodPressure := None;
               Analysis.heartRate :=
                 Some {| Entry.value := Fin 130; Entry.status := tachycardia;
                         Entry.risk := high |};
               Analysis.temperature := None;
               Analysis.oxygenSaturation :=
                 Some {| Entry.value := Fin 80; Entry.status := critical;
                         Entry.risk := critical |} |} in
  let p := {| shortTerm := []; mediumTerm := []; longTerm := [];
              conditions := []; probability := low |} in
  incl (Analysis.risks a) (Analysis.risks a') /\
  incl (shortTerm p) (shortTerm p) /\
  (Urgency.rank (assessUrgency a p) <= Urgency.rank (assessUrgency a' p))%nat.
Proof.
  cbv zeta.
  match goal with
  | |- ?A /\ ?B /\ _ =>
      assert (Ia : A) by (cbn; intros x [<-|[]]; cbn; tauto);
      assert (Ip : B) by (apply incl_refl)
  end.
  split; [exact Ia|]. split; [exact Ip|].
  exact (assessUrgency_monotone _ _ _ _ Ia Ip).
Defined.

(** * The analysis of the current vital signs *)

(** On finite numbers the classifiers in full are the classifiers on
    numbers. *)
Lemma Ext_on_finite (x y : Q) :
  Ext.classifyBloodPressure (Fin x) (Fin y) = classifyBloodPressure x y /\
  Ext.assessBloodPressureRisk (Fin x) (Fin y) = assessBloodPressureRisk x y /\
  Ext.classifyHeartRate (Fin x) = classifyHeartRate x /\
  Ext.assessHeartRateRisk (Fin x) = assessHeartRateRisk x /\
  Ext.classifyTemperature (Fin x) = classifyTemperature x /\
  Ext.assessTemperatureRisk (Fin x) = assessTemperatureRisk x /\
  Ext.classifyOxygenSaturation (Fin x) = classifyOxygenSaturation x /\
  Ext.assessOxygenRisk (Fin x) = assessOxygenRisk x.
Proof. repeat split; reflexivity. Qed.

Lemma truthy_Fin (q : Q) : JsNum.truthy (Fin q) = true <-> ~ q == 0.
Proof.
  cbn [JsNum.truthy]. rewrite negb_true_iff, <- not_true_iff_false, Qeq_bool_iff.
  reflexivity.
Qed.

Lemma falsyNumber_truthy (z : jsnumber) :
  falsyNumber z -> JsNum.truthy z = false.
Proof.
  intros [-> | (q & -> & E)]; [reflexivity|].
  cbn [JsNum.truthy]. apply negb_false_iff. apply Qeq_bool_iff. exact E.
Qed.

(** A reading of 0 (or [NaN]) is taken for a missing one: the analysis is
    the one obtained without it, and so is every urgency computed from it.
    This holds although the assessors would rate a heart rate or an oxygen
    saturation of 0 critical.  An empty blood-pressure string is skipped
    likewise. *)
Theorem analyzeCurrentVitals_zero_is_absent (Number : string -> jsnumber)
    (bp : option string) (h t o : option jsnumber) (z : jsnumber) :
  falsyNumber z ->
  analyzeCurrentVitals Number (VitalSigns.mk bp (Some z) t o)
  = analyzeCurrentVitals Number (VitalSigns.mk bp None t o) /\
  analyzeCurrentVitals Number (VitalSigns.mk bp h (Some z) o)
  = analyzeCurrentVitals Number (VitalSigns.mk bp h None o) /\
  analyzeCurrentVitals Number (VitalSigns.mk bp h t (Some z))
  = analyzeCurrentVitals Number (VitalSigns.mk bp h t None) /\
  analyzeCurrentVitals Number (VitalSigns.mk (Some EmptyString) h t o)
  = analyzeCurrentVitals Number (VitalSigns.mk None h t o) /\
  Ext.assessHeartRateRisk (Fin 0) = critical /\
  Ext.assessOxygenRisk (Fin 0) = critical.
Proof.
  intros Z. apply falsyNumber_truthy in Z.
  unfold analyzeCurrentVitals.
  cbn [VitalSigns.bloodPressure VitalSigns.heartRate VitalSigns.temperature
       VitalSigns.oxygenSaturation truthyString].
  rewrite Z. repeat split; reflexivity.
Qed.

Lemma analyzeCurrentVitals_zero_is_absent_witness :
  falsyNumber (Fin 0) /\
  analyzeCurrentVitals (fun _ => NaN)
    (VitalSigns.mk None (Some (Fin 0)) None (Some (Fin 98)))
  = analyzeCurrentVitals (fun _ => NaN)
      (VitalSigns.mk None None None (Some (Fin 98))).
Proof.
  assert (Z : falsyNumber (Fin 0))
    by (right; exists 0; split; reflexivity).
  split; [exact Z|].
  exact (proj1 (analyzeCurrentVitals_zero_is_absent
                  (fun _ => NaN) None None None (Some (Fin 98)) (Fin 0) Z)).
Defined.

(** *** The blood-pressure string *)

Lemma splitOn_whole (sep : ascii) (s : string) :
  hasChar sep s = false -> splitOn sep s = [s].
Proof.
  induction s as [|c s IH]; intros H; [reflexivity|].
  cbn in H. apply orb_false_iff in H. destruct H as [Hc Hs].
  cbn [splitOn]. rewrite Hc, (IH Hs). reflexivity.
Qed.

Lemma splitOn_first (sep : ascii) (a r : string) :
  hasChar sep a = false ->
  splitOn sep (a ++ String sep r) = a :: splitOn sep r.
Proof.
  induction a as [|c a IH]; intros H.
  - cbn. rewrite Ascii.eqb_refl. reflexivity.
  - cbn in H. apply orb_false_iff in H. destruct H as [Hc Ha].
    cbn [append splitOn]. rewrite Hc, (IH Ha). reflexivity.
Qed.

Lemma splitOn_two (a b tail : string) :
  hasChar "/" a = false -> hasChar "/" b = false ->
  tail = EmptyString \/ (exists u, tail = String "/" u) ->
  exists rest, splitOn "/" (a ++ String "/" (b ++ tail)) = a :: b :: rest.
Proof.
  intros Ha Hb [-> | (u & ->)]; rewrite (splitOn_first _ a _ Ha).
  - exists []. f_equal.
    replace (b ++ "")%string with b
      by (clear; induction b as [|c b IH]; cbn; [reflexivity | f_equal; exact IH]).
    apply splitOn_whole. exact Hb.
  - exists (splitOn "/" u). f_equal. apply splitOn_first. exact Hb.
Qed.

(** A blood pressure written [a/b], whatever follows a further [/], with
    [a] and [b] converting to finite numbers [x] and [y], is analysed by the
    classifiers on numbers: the entry holds [x], [y], the band
    [classifyBloodPressure x y] and the risk [assessBloodPressureRisk x y]. *)
Theorem analyzeCurrentVitals_bloodPressure (Number : string -> jsnumber)
    (a b tail : string) (h t o : option jsnumber) (x y : Q) :
  hasChar "/" a = false -> hasChar "/" b = false ->
  tail = EmptyString \/ (exists u, tail = String "/" u) ->
  Number a = Fin x -> Number b = Fin y ->
  Analysis.bloodPressure
    (analyzeCurrentVitals Number
       (VitalSigns.mk (Some (a ++ String "/" (b ++ tail))%string) h t o))
  = Some {| BpEntry.systolic := Some (Fin x);
            BpEntry.diastolic := Some (Fin y);
            BpEntry.status := classifyBloodPressure x y;
            BpEntry.risk := assessBloodPressureRisk x y |}.
Proof.
  intros Ha Hb Ht Nx Ny.
  destruct (splitOn_two a b tail Ha Hb Ht) as (rest & S).
  unfold analyzeCurrentVitals. cbn [Analysis.bloodPressure VitalSigns.bloodPressure].
  rewrite S.
  assert (T : truthyString (a ++ String "/" (b ++ tail))%string = true)
    by (destruct a; reflexivity).
  rewrite T. cbn [map nth_error]. rewrite Nx, Ny. reflexivity.
Qed.

Lemma analyzeCurrentVitals_bloodPressure_witness :
  let Number := fun s : string =>
    if String.eqb s "150" then Fin 150
    else if String.eqb s "95" then Fin 95 else NaN in
  hasChar "/" "150" = false /\ hasChar "/" "95" = false /\
  Analysis.bloodPressure
    (analyzeCurrentVitals Number
       (VitalSigns.mk (Some "150/95"%string) None None None))
  = Some {| BpEntry.systolic := Some (Fin 150);
            BpEntry.diastolic := Some (Fin 95);
            BpEntry.status := high;
            BpEntry.risk := moderate |}.
Proof.
  cbv zeta. split; [reflexivity|]. split; [reflexivity|].
  exact (analyzeCurrentVitals_bloodPressure _ "150" "95" "" None None None
           150 95 eq_refl eq_refl (or_introl eq_refl) eq_refl eq_refl).
Defined.

(** A blood pressure written without [/] has no diastolic component: every
    comparison on it is false.  The risk is then that of the systolic value
    alone, and so is the band, except between 120 and 130, where the band
    is normal, not elevated, while the risk is elevated. *)
Theorem analyzeCurrentVitals_missing_diastolic (Number : string -> jsnumber)
    (s : string) (h t o : option jsnumber) (x : Q) :
  hasChar "/" s = false -> s <> EmptyString -> Number s = Fin x ->
  exists e,
    Analysis.bloodPressure
      (analyzeCurrentVitals Number (VitalSigns.mk (Some s) h t o)) = Some e /\
    BpEntry.systolic e = Some (Fin x) /\
    BpEntry.diastolic e = None /\
    BpEntry.risk e = assessBloodPressureRisk x 0 /\
    (120 <= x -> x < 130 ->
     BpEntry.status e = normal /\ BpEntry.risk e = elevated) /\
    (~ (120 <= x /\ x < 130) -> BpEntry.status e = classifyBloodPressure x 0).
Proof.
  intros Hs Ne Nx.
  unfold analyzeCurrentVitals.
  cbn [Analysis.bloodPressure VitalSigns.bloodPressure].
  rewrite (splitOn_whole _ s Hs).
  assert (T : truthyString s = true) by (destruct s; [congruence | reflexivity]).
  rewrite T. cbn [map nth_error]. rewrite Nx.
  eexists. split; [reflexivity|].
  cbn [BpEntry.systolic BpEntry.diastolic BpEntry.risk BpEntry.status
       JsNum.ofUndefined].
  unfold Ext.assessBloodPressureRisk, Ext.classifyBloodPressure,
    assessBloodPressureRisk, classifyBloodPressure.
  cbn [JsNum.ge JsNum.lt].
  split; [reflexivity|]. split; [reflexivity|].
  split; [|split].
  - js_paths; reflexivity.
  - intros L U. split; js_paths; reflexivity.
  - intros N. js_paths; try reflexivity; exfalso; apply N; lra.
Qed.

Lemma analyzeCurrentVitals_missing_diastolic_witness :
  let Number := fun s : string =>
    if String.eqb s "125" then Fin 125 else NaN in
  exists e,
    Analysis.bloodPressure
      (analyzeCurrentVitals Number
         (VitalSigns.mk (Some "125"%string) None None None)) = Some e /\
    BpEntry.status e = normal /\ BpEntry.risk e = elevated.
Proof.
  cbv zeta.
  destruct (analyzeCurrentVitals_missing_diastolic
              (fun s : string => if String.eqb s "125" then Fin 125 else NaN)
              "125" None None None 125 eq_refl ltac:(discriminate) eq_refl)
    as (e & He & _ & _ & _ & Hn & _).
  exists e. split; [exact He|]. apply Hn; lra.
Defined.

(** *** From the readings to the urgency *)

Lemma hr_risk_critical_iff (h : Q) :
  assessHeartRateRisk h = critical <-> h < 40 \/ 140 < h.
Proof. rule_by_cases assessHeartRateRisk. Qed.

Lemma temp_risk_critical_iff (t : Q) :
  assessTemperatureRisk t = critical <-> 105 <= t.
Proof. rule_by_cases assessTemperatureRisk. Qed.

Lemma spo2_risk_critical_iff (o : Q) :
  assessOxygenRisk o = critical <-> o < 85.
Proof. rule_by_cases assessOxygenRisk. Qed.

(** With a blood pressure [a/b] and three finite readings, the urgency is
    emergency, whatever the predictions, exactly when the systolic value is
    at least 180, or the diastolic at least 120, or the heart rate is not 0
    and below 40 or above 140, or the temperature is at least 105, or the
    oxygen saturation is not 0 and below 85. *)
Theorem emergency_readings (Number : string -> jsnumber) (a b : string)
    (x y hr tp ox : Q) (p : RiskPredictions) :
  hasChar "/" a = false -> hasChar "/" b = false ->
  Number a = Fin x -> Number b = Fin y ->
  assessUrgency
    (analyzeCurrentVitals Number
       (VitalSigns.mk (Some (a ++ String "/" b)%string)
          (Some (Fin hr)) (Some (Fin tp)) (Some (Fin ox)))) p
  = Urgency.emergency
  <-> (180 <= x \/ 120 <= y)
      \/ (~ hr == 0 /\ (hr < 40 \/ 140 < hr))
      \/ 105 <= tp
      \/ (~ ox == 0 /\ ox < 85).
Proof.
  intros Ha Hb Nx Ny.
  rewrite (proj1 (assessUrgency_cases _ p)).
  unfold analyzeCurrentVitals, Analysis.risks.
  cbn [Analysis.bloodPressure Analysis.heartRate Analysis.temperature
       Analysis.oxygenSaturation VitalSigns.bloodPressure VitalSigns.heartRate
       VitalSigns.temperature VitalSigns.oxygenSaturation].
  rewrite (splitOn_first _ a b Ha), (splitOn_whole _ b Hb).
  assert (T : truthyString (a ++ String "/" b)%string = true)
    by (destruct a; reflexivity).
  rewrite T. cbn [map nth_error]. rewrite Nx, Ny.
  cbn [BpEntry.risk JsNum.ofUndefined].
  change (Ext.assessBloodPressureRisk (Fin x) (Fin y))
    with (assessBloodPressureRisk x y).
  change (Ext.assessHeartRateRisk (Fin hr)) with (assessHeartRateRisk hr).
  change (Ext.assessTemperatureRisk (Fin tp)) with (assessTemperatureRisk tp).
  change (Ext.assessOxygenRisk (Fin ox)) with (assessOxygenRisk ox).
  pose proof (truthy_Fin hr) as Th. pose proof (truthy_Fin ox) as To.
  assert (Tt : 105 <= tp -> JsNum.truthy (Fin tp) = true)
    by (intros; apply truthy_Fin; lra).
  destruct (JsNum.truthy (Fin hr)); destruct (JsNum.truthy (Fin tp));
    destruct (JsNum.truthy (Fin ox)); cbn [Entry.risk app In];
    rewrite ?bp_risk_critical, ?hr_risk_critical_iff, ?temp_risk_critical_iff,
      ?spo2_risk_critical_iff;
    intuition discriminate.
Qed.

Lemma emergency_readings_witness :
  let Number := fun s : string =>
    if String.eqb s "190" then Fin 190
    else if String.eqb s "70" then Fin 70 else NaN in
  let p := {| shortTerm := []; mediumTerm := []; longTerm := [];
              conditions := []; probability := low |} in
  hasChar "/" "190" = false /\ hasChar "/" "70" = false /\
  assessUrgency
    (analyzeCurrentVitals Number
       (VitalSigns.mk (Some "190/70"%string)
          (Some (Fin 72)) (Some (Fin 98.6)) (Some (Fin 98)))) p
  = Urgency.emergency.
Proof.
  cbv zeta. split; [reflexivity|]. split; [reflexivity|].
  apply (emergency_readings _ "190" "70" 190 70 72 98.6 98 _
           eq_refl eq_refl eq_refl eq_refl).
  left. left. lra.
Defined.

(** * The text of a prediction *)

(** A loop that pushes [f x] for the elements [x] that pass a test builds
    the image of the elements that pass, in order. *)
Lemma push_loop {A B : Type} (test : A -> bool) (f : A -> B) (l : list A)
    (init : list B) :
  fold_left (fun acc x => if test x then acc ++ [f x] else acc) l init
  = init ++ map f (filter test l).
Proof.
  revert init. induction l as [|x l IH]; intros init; cbn [fold_left filter].
  - rewrite app_nil_r. reflexivity.
  - rewrite IH. destruct (test x); [|reflexivity].
    cbn [map]. rewrite <- app_assoc. reflexivity.
Qed.

(** The risks and the conditions read off a text are, in the order of the
    lines, one item per line that mentions a keyword of the list at hand;
    the severity of an item is that of its own line, not of the text.  No
    more items come out than the text has lines. *)
Theorem extracted_items (toLowerCase trim : string -> string)
    (content : string) :
  let lines := splitOn lineFeed content in
  let item (frame line : string) : RiskItem :=
    {| description := trim line;
       severity := assessSeverity toLowerCase line;
       timeframe := frame |} in
  extractShortTermRisks toLowerCase trim content
  = map (item "24-48 hours"%string)
      (filter (fun l => mentions toLowerCase l "short-term" || mentions toLowerCase l "24-48 hours") lines) /\
  extractMediumTermRisks toLowerCase trim content
  = map (item "1 week"%string)
      (filter (fun l => mentions toLowerCase l "medium-term" || mentions toLowerCase l "week") lines) /\
  extractLongTermRisks toLowerCase trim content
  = map (item "1 month"%string)
      (filter (fun l => mentions toLowerCase l "long-term" || mentions toLowerCase l "month") lines) /\
  extractConditions toLowerCase trim content
  = map trim (filter (fun l => mentions toLowerCase l "condition" || mentions toLowerCase l "disease") lines) /\
  (List.length (extractShortTermRisks toLowerCase trim content)
   <= List.length lines)%nat.
Proof.
  cbv zeta.
  unfold extractShortTermRisks, extractMediumTermRisks, extractLongTermRisks,
    extractConditions.
  rewrite !push_loop. cbn [app].
  repeat split. rewrite length_map. apply filter_length_le.
Qed.

Lemma severity_severe (toLowerCase : string -> string) (line : string) :
  (assessSeverity toLowerCase line = high \/
   assessSeverity toLowerCase line = critical)
  <-> (mentions toLowerCase line "critical" || mentions toLowerCase line "severe" || mentions toLowerCase line "high"
       || mentions toLowerCase line "serious") = true.
Proof.
  cbv zeta. unfold assessSeverity.
  destruct (mentions toLowerCase line "critical");
  destruct (mentions toLowerCase line "severe");
  destruct (mentions toLowerCase line "high");
  destruct (mentions toLowerCase line "serious");
  cbn [orb]; try (split; [reflexivity | tauto]).
  destruct (mentions toLowerCase line "moderate" || mentions toLowerCase line "medium");
    split; intros H; try discriminate H; destruct H; discriminate.
Qed.

(** With the text of a response, the urgency is urgent exactly when no
    vital has risk critical and some line of the text mentions 'short-term'
    or '24-48 hours' together with one of 'critical', 'severe', 'high' and
    'serious'.  When the call to the model fails, the urgency is never
    urgent: the vitals alone decide. *)
Theorem urgency_from_prediction_text (toLowerCase trim : string -> string)
    (a : Analysis.t) (content : string) :
  (assessUrgency a (predictHealthRisks toLowerCase trim (Some content))
   = Urgency.urgent
   <-> ~ In critical (Analysis.risks a) /\
       exists line, In line (splitOn lineFeed content) /\
         (mentions toLowerCase line "short-term" || mentions toLowerCase line "24-48 hours") = true /\
         (mentions toLowerCase line "critical" || mentions toLowerCase line "severe" || mentions toLowerCase line "high"
          || mentions toLowerCase line "serious") = true) /\
  assessUrgency a (predictHealthRisks toLowerCase trim None)
  <> Urgency.urgent.
Proof.
  cbv zeta. split.
  - rewrite (proj1 (proj2 (assessUrgency_cases a _))).
    cbn [predictHealthRisks shortTerm].
    unfold extractShortTermRisks. rewrite push_loop. cbn [app].
    split; intros [N S]; (split; [exact N|]).
    + destruct S as (r & Hin & Hs).
      apply in_map_iff in Hin. destruct Hin as (line & <- & Hf).
      apply filter_In in Hf. destruct Hf as [Hl Hm].
      exists line. split; [exact Hl|]. split; [exact Hm|].
      cbn [severity] in Hs. apply (severity_severe toLowerCase line). exact Hs.
    + destruct S as (line & Hl & Hm & Hs).
      eexists. split.
      * apply in_map_iff. exists line. split; [reflexivity|].
        apply filter_In. split; [exact Hl | exact Hm].
      * cbn [severity]. apply (severity_severe toLowerCase line). exact Hs.
  - intros E. apply (proj1 (proj2 (assessUrgency_cases a _))) in E.
    destruct E as (_ & r & [] & _).
Qed.

(** * Triage of a telemedicine request *)

(** The consultation type and the urgency read off one text go together:
    emergency with high, urgent with medium, routine with low. *)
Theorem triage_type_matches_urgency (toLowerCase : string -> string)
    (content : string) :
  let ty := Telemedicine.extractConsultationType toLowerCase content in
  let ur := Telemedicine.extractUrgency toLowerCase content in
  (ty = "emergency" <-> ur = "high")%string /\
  (ty = "urgent" <-> ur = "medium")%string /\
  (ty = "routine" <-> ur = "low")%string.
Proof.
  cbv zeta.
  unfold Telemedicine.extractConsultationType, Telemedicine.extractUrgency.
  destruct (mentions toLowerCase content "emergency");
    [|destruct (mentions toLowerCase content "urgent")];
    repeat split; intros E; try reflexivity; discriminate E.
Qed.

(** * The error-handling middleware *)



Ltac answer_of H :=
  cbn [override infoMessage infoStatusCode orCode orMessage Z.eqb] in H;
  match type of H with
  | context [String.eqb ?p ?h] => destruct (String.eqb p h)
  end;
  [|match type of H with
    | context [String.prefix ?a ?p] => destruct (String.prefix a p)
    end];
  injection H as <-;
  cbn [Http.status Http.json Http.error find fst snd orMessage];
  split; reflexivity.

Ltac validated_then tac H :=
  match type of H with
  | context [nameIs ?e "ValidationError"] =>
      destruct (nameIs e "ValidationError");
      [destruct (Err.errors e); [|discriminate H]|]
  end; tac H.

Lemma defaultStatus_orCode (err : Err.t) :
  match orCode (orCode (Err.statusCode err) (Err.statusCode err))
          (Some 500%Z) with
  | Some c => c
  | None => 500%Z
  end = defaultStatus err.
Proof.
  unfold defaultStatus. destruct (Err.statusCode err) as [z|]; cbn [orCode];
    [|reflexivity].
  destruct (z =? 0)%Z eqn:Z0; cbn [orCode]; rewrite ?Z0; reflexivity.
Qed.

(** What [errorHandler] answers: the message settled on, with status 200 on
    the health path and the status settled on elsewhere. *)
Lemma errorHandler_answer (development : bool) (err : Err.t) (path : string)
    (r : Http.response) :
  errorHandler development err path = Some r ->
  Http.error (Http.json r) = fst (settled err) /\
  Http.status r = if String.eqb path "/health" then 200%Z
                  else snd (settled err).
Proof.
  intros H. unfold errorHandler in H.
  unfold settled, lastRule, errorRules. cbn [rev app find fst snd].
  destruct (codeIs err "ECONNREFUSED"); [validated_then answer_of H|].
  destruct (statusIs err 429); [validated_then answer_of H|].
  destruct (codeIs err "LIMIT_UNEXPECTED_FILE"); [validated_then answer_of H|].
  destruct (codeIs err "LIMIT_FILE_SIZE"); [validated_then answer_of H|].
  destruct (codeIs err "openai_api_error"); [validated_then answer_of H|].
  destruct (nameIs err "TokenExpiredError"); [validated_then answer_of H|].
  destruct (nameIs err "JsonWebTokenError"); [validated_then answer_of H|].
  destruct (nameIs err "ValidationError");
    [destruct (Err.errors err); [|discriminate H]; answer_of H|].
  destruct (codeIsNumber err 11000); [answer_of H|].
  destruct (nameIs err "CastError"); [answer_of H|].
  cbn [override infoMessage infoStatusCode] in H.
  rewrite defaultStatus_orCode in H.
  destruct (String.eqb path "/health");
    [|destruct (String.prefix "/api/" path)];
    injection H as <-; cbn [Http.status Http.json Http.error fst snd];
    split; reflexivity.
Qed.

(** Off the health path the last rule that applies, in source order,
    decides the status and the message: so a refused connection answers 503
    whatever else the error is, and a status 429 comes before everything
    but that.  When no rule applies the status is [err.statusCode], or 500
    when that is missing or 0, and the message is [err.message].  An empty
    or missing message is replaced by 'Server Error'. *)
Theorem errorHandler_last_rule_wins (development : bool) (err : Err.t)
    (path : string) (r : Http.response) :
  errorHandler development err path = Some r ->
  path <> "/health"%string ->
  match lastRule err with
  | Some (message, statusCode) =>
      Http.status r = statusCode /\
      Http.error (Http.json r) = orMessage (Some message) "Server Error"
  | None =>
      Http.status r = defaultStatus err /\
      Http.error (Http.json r) = orMessage (Err.message err) "Server Error"
  end.
Proof.
  intros H Hp. apply String.eqb_neq in Hp.
  destruct (errorHandler_answer development err path r H) as [M S].
  rewrite Hp in S. unfold settled in M, S.
  destruct (lastRule err) as [[m c]|]; cbn [fst snd] in M, S;
    split; assumption.
Qed.

Lemma errorHandler_last_rule_wins_witness :
  let err := {| Err.name := Some "CastError"%string;
                Err.code := Err.StrCode "ECONNREFUSED";
                Err.status := Some 429%Z; Err.statusCode := Some 418%Z;
                Err.message := Some "connect ECONNREFUSED"%string;
                Err.errors := None |} in
  let r := {| Http.status := 503;
              Http.json :=
                Http.ApiFailure "Service temporarily unavailable" false |} in
  errorHandler false err "/api/chat" = Some r /\
  "/api/chat"%string <> "/health"%string /\
  Http.status r = 503%Z /\
  Http.error (Http.json r) = "Service temporarily unavailable"%string.
Proof.
  cbv zeta.
  match goal with
  | |- ?A /\ ?B /\ _ =>
      assert (H : A) by reflexivity; assert (Hp : B) by discriminate
  end.
  split; [exact H|]. split; [exact Hp|].
  exact (errorHandler_last_rule_wins false _ "/api/chat" _ H Hp).
Defined.

Lemma orMessage_not_empty (a : option string) (b : string) :
  b <> EmptyString -> orMessage a b <> EmptyString.
Proof.
  intros Hb. destruct a as [[|c s]|]; cbn [orMessage];
    [exact Hb | discriminate | exact Hb].
Qed.

Lemma defaultStatus_not_zero (err : Err.t) : defaultStatus err <> 0%Z.
Proof.
  unfold defaultStatus. destruct (Err.statusCode err) as [z|]; cbn [orCode];
    [|discriminate].
  destruct (z =? 0)%Z eqn:Z0; [discriminate|].
  apply Z.eqb_neq. exact Z0.
Qed.

Lemma lastRule_status (err : Err.t) :
  match lastRule err with
  | Some (_, c) => In c ruleStatuses /\ someRule err = true
  | None => someRule err = false
  end.
Proof.
  unfold lastRule, errorRules, someRule, ruleStatuses.
  cbn [rev app find fst snd].
  destruct (codeIs err "ECONNREFUSED");
    [split; [cbn; tauto | rewrite !orb_true_r; reflexivity]|].
  destruct (statusIs err 429);
    [split; [cbn; tauto | rewrite !orb_true_r; reflexivity]|].
  destruct (codeIs err "LIMIT_UNEXPECTED_FILE");
    [split; [cbn; tauto | rewrite !orb_true_r; reflexivity]|].
  destruct (codeIs err "LIMIT_FILE_SIZE");
    [split; [cbn; tauto | rewrite !orb_true_r; reflexivity]|].
  destruct (codeIs err "openai_api_error");
    [split; [cbn; tauto | rewrite !orb_true_r; reflexivity]|].
  destruct (nameIs err "TokenExpiredError");
    [split; [cbn; tauto | rewrite !orb_true_r; reflexivity]|].
  destruct (nameIs err "JsonWebTokenError");
    [split; [cbn; tauto | rewrite !orb_true_r; reflexivity]|].
  destruct (nameIs err "ValidationError");
    [split; [cbn; tauto | rewrite !orb_true_r; reflexivity]|].
  destruct (codeIsNumber err 11000);
    [split; [cbn; tauto | rewrite !orb_true_r; reflexivity]|].
  destruct (nameIs err "CastError");
    [split; [cbn; tauto | reflexivity]|].
  reflexivity.
Qed.

(** A response of [errorHandler] never has an empty error message nor the
    status 0; when a rule applies to the error, the status off the health
    path is one of 400, 401, 404, 429 and 503, whatever [statusCode] the
    error brought along. *)
Theorem errorHandler_never_blank (development : bool) (err : Err.t)
    (path : string) (r : Http.response) :
  errorHandler development err path = Some r ->
  Http.error (Http.json r) <> EmptyString /\
  Http.status r <> 0%Z /\
  (someRule err = true -> path <> "/health"%string ->
   In (Http.status r) ruleStatuses).
Proof.
  intros H.
  destruct (errorHandler_answer development err path r H) as [M S].
  pose proof (lastRule_status err) as L.
  unfold settled in M, S.
  destruct (lastRule err) as [[m c]|]; cbn [fst snd] in M, S.
  - destruct L as [Lc _]. split; [|split].
    + rewrite M. apply orMessage_not_empty. discriminate.
    + rewrite S. destruct (String.eqb path "/health"); [discriminate|].
      unfold ruleStatuses in Lc. cbn in Lc.
      intros Z0. rewrite Z0 in Lc. intuition discriminate.
    + intros _ Hp. apply String.eqb_neq in Hp. rewrite Hp in S.
      rewrite S. exact Lc.
  - split; [|split].
    + rewrite M. apply orMessage_not_empty. discriminate.
    + rewrite S. destruct (String.eqb path "/health"); [discriminate|].
      apply defaultStatus_not_zero.
    + intros R. rewrite L in R. discriminate R.
Qed.

Lemma errorHandler_never_blank_witness :
  let err := {| Err.name := Some "ValidationError"%string;
                Err.code := Err.NoCode;
                Err.status := None; Err.statusCode := Some 0%Z;
                Err.message := Some "Validation failed"%string;
                Err.errors := Some [] |} in
  let r := {| Http.status := 400; Http.json := Http.Failure "Server Error" |} in
  errorHandler true err "/profile" = Some r /\
  Http.error (Http.json r) <> EmptyString /\
  Http.status r <> 0%Z.
Proof.
  cbv zeta.
  match goal with
  | |- ?A /\ _ => assert (H : A) by reflexivity
  end.
  split; [exact H|].
  pose proof (errorHandler_never_blank true _ "/profile" _ H) as T.
  split; [apply T | apply T].
Defined.

(** * Telemedicine sessions *)

Lemma get_replace (Data : Type) (sessions : Sessions.store Data)
    (sessionId : string) (s s' : Sessions.session Data) :
  Sessions.get Data sessions sessionId = Some s ->
  Sessions.get Data (Sessions.replace Data sessions sessionId s') sessionId
  = Some s'.
Proof.
  induction sessions as [|[k v] rest IH]; cbn; [discriminate|].
  destruct (String.eqb k sessionId) eqn:E; cbn; rewrite E;
    [reflexivity | exact IH].
Qed.

Lemma get_replace_other (Data : Type) (sessions : Sessions.store Data)
    (sessionId other : string) (s' : Sessions.session Data) :
  other <> sessionId ->
  Sessions.get Data (Sessions.replace Data sessions sessionId s') other
  = Sessions.get Data sessions other.
Proof.
  intros N. induction sessions as [|[k v] rest IH]; cbn; [reflexivity|].
  destruct (String.eqb k sessionId) eqn:E; cbn.
  - apply String.eqb_eq in E. subst k.
    apply not_eq_sym in N. apply String.eqb_neq in N. rewrite N. reflexivity.
  - rewrite IH. reflexivity.
Qed.

Lemma replace_keys (Data : Type) (sessions : Sessions.store Data)
    (sessionId : string) (s' : Sessions.session Data) :
  map fst (Sessions.replace Data sessions sessionId s') = map fst sessions.
Proof.
  induction sessions as [|[k v] rest IH]; cbn; [reflexivity|].
  destruct (String.eqb k sessionId); cbn; [reflexivity | f_equal; exact IH].
Qed.

(** Joining a session that the map does not hold fails with 'Failed to join
    session' and leaves the map as it was.  Joining one it holds succeeds,
    whatever the status of the session, ended ones included: the newcomer
    is put after the participants already there, in the object returned as
    in the map; the status of the session, the identifiers of the map and
    every other session stay as they were. *)
Theorem joinSession_outcome (Data : Type) (now : Z)
    (sessions : Sessions.store Data) (sessionId userId userType : string) :
  let newcomer := {| Sessions.userId := userId;
                     Sessions.userType := userType;
                     Sessions.joinTime := now |} in
  let after :=
    Sessions.joinSession Data now sessions sessionId userId userType in
  (Sessions.get Data sessions sessionId = None ->
   after = (sessions, inr "Failed to join session"%string)) /\
  (forall s, Sessions.get Data sessions sessionId = Some s ->
   let present :=
     match Sessions.participants Data s with Some l => l | None => [] end in
   (exists r, snd after = inl r /\
      Sessions.joinedParticipants Data r = present ++ [newcomer] /\
      Sessions.sessionData Data r = Sessions.data Data s) /\
   (exists s', Sessions.get Data (fst after) sessionId = Some s' /\
      Sessions.participants Data s' = Some (present ++ [newcomer]) /\
      Sessions.status Data s' = Sessions.status Data s) /\
   map fst (fst after) = map fst sessions /\
   (forall other, other <> sessionId ->
      Sessions.get Data (fst after) other = Sessions.get Data sessions other)).
Proof.
  cbv zeta. unfold Sessions.joinSession. split.
  - intros ->. reflexivity.
  - intros s Hs. rewrite Hs. cbn [fst snd]. split; [|split; [|split]].
    + eexists. split; [reflexivity|]. split; reflexivity.
    + eexists. split; [exact (get_replace Data sessions sessionId s _ Hs)|].
      split; reflexivity.
    + apply replace_keys.
    + intros other N. apply get_replace_other. exact N.
Qed.

Lemma joinSession_outcome_witness :
  let s := {| Sessions.owner := "u1"%string; Sessions.startTime := 1000%Z;
              Sessions.status := "ended"%string; Sessions.data := tt;
              Sessions.participants := None;
              Sessions.endTime := Some 5000%Z |} in
  let sessions := [("session_1"%string, s)] in
  Sessions.get unit sessions "session_1" = Some s /\
  exists r,
    snd (Sessions.joinSession unit 6000 sessions "session_1" "d7" "doctor")
    = inl r /\
    Sessions.joinedParticipants unit r
    = [ {| Sessions.userId := "d7"%string; Sessions.userType := "doctor"%string;
           Sessions.joinTime := 6000%Z |} ].
Proof.
  cbv zeta.
  match goal with
  | |- ?A /\ _ => assert (H : A) by reflexivity
  end.
  split; [exact H|].
  destruct (proj1 (proj2 (joinSession_outcome unit 6000 _ "session_1"
                            "d7" "doctor") _ H))
    as (r & Hr & Hp & _).
  exists r. split; [exact Hr | exact Hp].
Defined.

(** Ending a session the map holds marks it ended at the date of the call
    and keeps it in the map, with its participants, also when the summary
    cannot be written and the call fails; it answers with the duration
    since the start when the summary is there.  Nothing closes an ended
    session: it can still be joined. *)
Theorem endSession_outcome (Data : Type) (now later : Z)
    (modelSummary : option string) (sessions : Sessions.store Data)
    (sessionId userId userType : string) (s : Sessions.session Data) :
  Sessions.get Data sessions sessionId = Some s ->
  let after := Sessions.endSession Data now modelSummary sessions sessionId in
  (exists s', Sessions.get Data (fst after) sessionId = Some s' /\
     Sessions.status Data s' = "ended"%string /\
     Sessions.endTime Data s' = Some now /\
     Sessions.participants Data s' = Sessions.participants Data s) /\
  map fst (fst after) = map fst sessions /\
  match modelSummary with
  | Some text =>
      snd after
      = inl {| Sessions.endedId := sessionId;
               Sessions.endedStatus := "ended";
               Sessions.summary := text;
               Sessions.duration := (now - Sessions.startTime Data s)%Z |}
  | None => snd after = inr "Failed to end session"%string
  end /\
  exists r,
    snd (Sessions.joinSession Data later (fst after) sessionId userId userType)
    = inl r.
Proof.
  intros Hs. cbv zeta. unfold Sessions.endSession. rewrite Hs.
  set (s' := Sessions.mkSession Data _ _ _ _ _ _).
  assert (G : Sessions.get Data (Sessions.replace Data sessions sessionId s')
                sessionId = Some s')
    by exact (get_replace Data sessions sessionId s s' Hs).
  assert (F : fst (match modelSummary with
                   | Some text =>
                       (Sessions.replace Data sessions sessionId s',
                        inl {| Sessions.endedId := sessionId;
                               Sessions.endedStatus := "ended";
                               Sessions.summary := text;
                               Sessions.duration :=
                                 (now - Sessions.startTime Data s)%Z |})
                   | None =>
                       (Sessions.replace Data sessions sessionId s',
                        inr "Failed to end session"%string)
                   end)
              = Sessions.replace Data sessions sessionId s')
    by (destruct modelSummary; reflexivity).
  rewrite F. split; [|split; [|split]].
  - exists s'. split; [exact G|]. repeat split.
  - apply replace_keys.
  - destruct modelSummary; reflexivity.
  - unfold Sessions.joinSession. rewrite G. eexists. reflexivity.
Qed.

Lemma endSession_outcome_witness :
  let s := {| Sessions.owner := "u1"%string; Sessions.startTime := 1000%Z;
              Sessions.status := "active"%string; Sessions.data := tt;
              Sessions.participants := None;
              Sessions.endTime := None |} in
  let sessions := [("session_1"%string, s)] in
  Sessions.get unit sessions "session_1" = Some s /\
  snd (Sessions.endSession unit 5000 None sessions "session_1")
  = inr "Failed to end session"%string /\
  exists s',
    Sessions.get unit
      (fst (Sessions.endSession unit 5000 None sessions "session_1"))
      "session_1" = Some s' /\
    Sessions.status unit s' = "ended"%string.
Proof.
  cbv zeta.
  match goal with
  | |- ?A /\ _ => assert (H : A) by reflexivity
  end.
  split; [exact H|].
  destruct (endSession_outcome unit 5000 6000 None _ "session_1" "d7" "doctor"
              _ H) as ((s' & Hg & Hst & _) & _ & Hf & _).
  split; [exact Hf|].
  exists s'. split; [exact Hg | exact Hst].
Defined.
